(** * Build-plan generator (package [dockerfile]): a shallow embedding

    The Go generator assembles the text of a container build file and of an
    ignore file from a declarative configuration.  Go strings are byte
    sequences and are modelled by [string] (a list of 8-bit [ascii]);
    Go's [error] values are modelled by their message; a Go function that
    returns [(value, error)] returns a [result]. *)

From Stdlib Require Import String Ascii List ZArith Bool Arith Lia DecimalString.
Import ListNotations.
Open Scope list_scope.
Open Scope string_scope.

Set Implicit Arguments.

(** ** Results of fallible functions *)

Definition error := string.

Inductive result (A : Type) : Type :=
| Ok (a : A)
| Err (e : error).
Arguments Ok {A} a.
Arguments Err {A} e.

Definition isErr {A} (r : result A) : bool :=
  match r with Ok _ => false | Err _ => true end.

(** ** The fragment of Go's standard library the generator calls *)

Module Go.

Definition LFc : ascii := ascii_of_nat 10.
Definition LF : string := String LFc "".
Definition TAB : string := String (ascii_of_nat 9) "".
Definition DQ : string := String (ascii_of_nat 34) "".
Definition BS : string := String (ascii_of_nat 92) "".

(** [strings.Join]. *)
Definition Join (elems : list string) (sep : string) : string :=
  String.concat sep elems.

(** [strings.Split] for a one-byte separator: the first field and the
    remaining ones; the result of [Split] is never empty. *)
Fixpoint fields (sep : ascii) (s : string) : string * list string :=
  match s with
  | "" => ("", [])
  | String c s' =>
      let (hd, tl) := fields sep s' in
      if Ascii.eqb c sep then ("", hd :: tl) else (String c hd, tl)
  end.

Definition Split (s : string) (sep : ascii) : list string :=
  let (hd, tl) := fields sep s in hd :: tl.

(** [strings.HasPrefix]. *)
Definition HasPrefix (s pre : string) : bool := String.prefix pre s.

(** [strings.Contains]. *)
Fixpoint Contains (s sub : string) : bool :=
  String.prefix sub s ||
  match s with
  | "" => false
  | String _ s' => Contains s' sub
  end.

(** [strings.Trim]: an empty cutset returns the text unchanged; otherwise
    leading and trailing bytes of the cutset are removed. *)
Fixpoint inCutset (c : ascii) (cutset : string) : bool :=
  match cutset with
  | "" => false
  | String d cs => Ascii.eqb c d || inCutset c cs
  end.

Fixpoint trimLeftCut (cutset s : string) : string :=
  match s with
  | "" => ""
  | String c s' => if inCutset c cutset then trimLeftCut cutset s' else s
  end.

Fixpoint rev_string (acc s : string) : string :=
  match s with
  | "" => acc
  | String c s' => rev_string (String c acc) s'
  end.

Definition Trim (s cutset : string) : string :=
  if (cutset =? "")%string then s
  else rev_string "" (trimLeftCut cutset (rev_string "" (trimLeftCut cutset s))).

(** [strings.TrimSpace] removes leading and trailing white space as
    [unicode.IsSpace] defines it.  The six ASCII ones are single bytes; the
    others are matched by their UTF-8 encodings: U+0085 and U+00A0 (C2 85,
    C2 A0), U+1680 (E1 9A 80), U+2000..U+200A, U+2028, U+2029, U+202F
    (E2 80 80..8A, A8, A9, AF), U+205F (E2 81 9F) and U+3000 (E3 80 80). *)
Definition byteIs (c : ascii) (n : nat) : bool := Nat.eqb (nat_of_ascii c) n.

Definition asciiSpace (c : ascii) : bool :=
  byteIs c 9 || byteIs c 10 || byteIs c 11 || byteIs c 12 || byteIs c 13
  || byteIs c 32.

Definition space2 (a b : ascii) : bool :=
  byteIs a 194 && (byteIs b 133 || byteIs b 160).

Definition space3 (a b c : ascii) : bool :=
  (byteIs a 225 && byteIs b 154 && byteIs c 128)
  || (byteIs a 226 && byteIs b 128
      && ((Nat.leb 128 (nat_of_ascii c) && Nat.leb (nat_of_ascii c) 138)
          || byteIs c 168 || byteIs c 169 || byteIs c 175))
  || (byteIs a 226 && byteIs b 129 && byteIs c 159)
  || (byteIs a 227 && byteIs b 128 && byteIs c 128).

Fixpoint trimLeftSpace (s : string) : string :=
  match s with
  | "" => ""
  | String a s1 =>
      if asciiSpace a then trimLeftSpace s1
      else
        match s1 with
        | "" => s
        | String b s2 =>
            if space2 a b then trimLeftSpace s2
            else
              match s2 with
              | "" => s
              | String c s3 => if space3 a b c then trimLeftSpace s3 else s
              end
        end
  end.

(** The same from the right end, on the reversed text (so an encoding is
    met last byte first). *)
Fixpoint trimLeftSpaceRev (s : string) : string :=
  match s with
  | "" => ""
  | String a s1 =>
      if asciiSpace a then trimLeftSpaceRev s1
      else
        match s1 with
        | "" => s
        | String b s2 =>
            if space2 b a then trimLeftSpaceRev s2
            else
              match s2 with
              | "" => s
              | String c s3 => if space3 c b a then trimLeftSpaceRev s3 else s
              end
        end
  end.

Definition TrimSpace (s : string) : string :=
  rev_string "" (trimLeftSpaceRev (rev_string "" (trimLeftSpace s))).

(** [%d] of [fmt.Sprintf]. *)
Definition itoa (z : Z) : string := NilZero.string_of_int (Z.to_int z).

(** [path.Clean], on the elements between slashes: empty and [.] elements
    are dropped, [..] removes the element before it, is dropped at the root
    of a rooted path and is kept in front of an unrooted one. *)
Fixpoint cleanElems (rooted : bool) (stack elems : list string) : list string :=
  match elems with
  | [] => rev stack
  | e :: es =>
      if (e =? "")%string || (e =? ".")%string then cleanElems rooted stack es
      else if (e =? "..")%string then
        match stack with
        | top :: rest =>
            if (top =? "..")%string then cleanElems rooted (e :: stack) es
            else cleanElems rooted rest es
        | [] => if rooted then cleanElems rooted [] es
                else cleanElems rooted [e] es
        end
      else cleanElems rooted (e :: stack) es
  end.

Definition Clean (p : string) : string :=
  let rooted := HasPrefix p "/" in
  let out := Join (cleanElems rooted [] (Split p "/"%char)) "/" in
  if rooted then "/" ++ out
  else if (out =? "")%string then "." else out.

(** [path.Join]: empty elements are ignored, the others are joined by a
    slash and the result is cleaned; all empty gives the empty text. *)
Definition PathJoin (elem : list string) : string :=
  match filter (fun e => negb (e =? "")%string) elem with
  | [] => ""
  | es => Clean (Join es "/")
  end.

(** [path.Dir]: the text up to the last slash, cleaned. *)
Definition PathDir (p : string) : string :=
  let elems := Split p "/"%char in
  Clean (Join (removelast elems) "/"
         ++ (if Nat.ltb 1 (List.length elems) then "/" else "")).

End Go.

(** ** Data model *)

(** [config.Config] is declared outside this package.  Of its [Build]
    section the generator reads the fields below; everything else is reached
    through the methods listed in [Collaborators]. *)
Record Mount := {
  MountType : string;
  ID : string;
  Target : string
}.

Record RunItem := {
  Command : string;
  Mounts : list Mount
}.

Record BuildConfig := {
  GPU : bool;
  CUDA : string;
  PythonVersion : string;
  SystemPackages : list string;
  Run : list RunItem;
  PreInstall : list string
}.

(** [version.Version]: the two fields [stripPatchVersion] prints. *)
Record Version := {
  Major : Z;
  Minor : Z
}.

(** The fields of [BaseImageGenerator] that [BaseImage] reads. *)
Record BaseImageGenerator := {
  cudaVersion : string;
  pythonVersion : string;
  torchVersion : string
}.

(** Messages sent to the [console] package. *)
Inductive ConsoleMsg :=
| Warnf (msg : string)
| Debugf (msg : string).

Definition DockerignoreHeader : string :=
  Go.Join [
    "# generated by replicate/cog";
    "__pycache__";
    "*.pyc";
    "*.pyo";
    "*.pyd";
    ".Python";
    "env";
    "pip-log.txt";
    "pip-delete-this-directory.txt";
    ".tox";
    ".coverage";
    ".coverage.*";
    ".cache";
    "nosetests.xml";
    "coverage.xml";
    "*.cover";
    "*.log";
    ".git";
    ".mypy_cache";
    ".pytest_cache";
    ".hypothesis";
    ""
  ] Go.LF.

(** Modelled from the spec: [slices.FilterString] and
    [slices.ContainsString] (package [pkg/util/slices]) are not among the
    sources; the spec says of their one use that packages already present
    in the base image are removed from the requested list. *)
Definition slices_ContainsString (strs : list string) (target : string) : bool :=
  existsb (fun s => (s =? target)%string) strs.

Definition slices_FilterString (ss : list string) (test : string -> bool)
  : list string :=
  filter test ss.

(** ** Text normalization *)

Fixpoint filterEmpty (l : list string) : list string :=
  match l with
  | [] => []
  | s :: rest =>
      if negb (s =? "")%string then s :: filterEmpty rest else filterEmpty rest
  end.

Definition joinStringsWithoutLineSpace (chunks : list string) : string :=
  let lines :=
    fold_left (fun lines chunk => (lines ++ Go.Split chunk Go.LFc)%list) chunks [] in
  Go.Join (filterEmpty lines) Go.LF.

(** ** The ignore file *)

Definition makeDockerignoreForWeights (dirs files : list string) : string :=
  let contents :=
    fold_left (fun contents p => contents ++ p ++ Go.LF ++ p ++ "/**/*" ++ Go.LF)
              dirs "" in
  let contents :=
    fold_left (fun contents p => contents ++ p ++ Go.LF) files contents in
  DockerignoreHeader ++ contents.

(** ** The generator *)

Section Generator.

(** [config.Config], the state of the host (file system, environment,
    clock, console) and [weights.FileWalker]. *)
Variables (Config World FileWalker : Type).

Record Generator := {
  gConfig : Config;
  Dir : string;
  GOOS : string;
  GOARCH : string;
  useCudaBaseImage : bool;
  useCogBaseImage : bool;
  tmpDir : string;
  relativeTmpDir : string;
  fileWalker : FileWalker;
  modelDirs : list string;
  modelFiles : list string;
  pythonRequirementsContents : string
}.

(** What the generator calls outside this file: the operating system, the
    [filepath] package (whose results depend on the platform), the console,
    and the other packages of the repository. *)
Record Collaborators := {
  os_MkdirAll : string -> N -> World -> World * option error;
  os_MkdirTemp : string -> string -> World -> World * result string;
  os_WriteFile : string -> string -> N -> World -> World * option error;
  os_Getenv : string -> World -> string;
  time_Now_Format : string -> World -> string;
  runtime_GOOS : string;
  filepath_Join : list string -> string;
  filepath_Dir : string -> string;
  filepath_Rel : string -> string -> result string;
  filepath_Walk : FileWalker;
  console : ConsoleMsg -> World -> World;
  cogWheelEmbed : string;
  Build : Config -> BuildConfig;
  TorchVersion : Config -> string * bool;
  TorchvisionVersion : Config -> string * bool;
  CUDABaseImageTag : Config -> result string;
  PythonRequirementsForArch :
    Config -> string -> string -> list string -> string * option error;
  version_NewVersion : string -> result Version;
  NewBaseImageGenerator : string -> string -> string -> result BaseImageGenerator;
  BaseImageName : string -> string -> string -> string;
  baseImageSystemPackages : list string;
  weights_FindWeights :
    FileWalker -> World -> World * result (list string * list string)
}.

Variable env : Collaborators.

(** *** State and errors

    A method of [*Generator] reads and updates the generator and the host,
    and returns a value or an error; an update made before an error stays. *)
Definition M (A : Type) : Type :=
  Generator * World -> (Generator * World) * result A.

Definition ret {A} (a : A) : M A := fun s => (s, Ok a).
Definition fail {A} (e : error) : M A := fun s => (s, Err e).
Definition bind {A B} (m : M A) (k : A -> M B) : M B :=
  fun s =>
    match m s with
    | (s', Ok a) => k a s'
    | (s', Err e) => (s', Err e)
    end.
Definition getG : M Generator := fun s => (s, Ok (fst s)).
Definition modifyG (f : Generator -> Generator) : M unit :=
  fun s => ((f (fst s), snd s), Ok tt).
Definition liftW {A} (f : World -> World * A) : M A :=
  fun s => let (w, a) := f (snd s) in ((fst s, w), Ok a).
Definition readW {A} (f : World -> A) : M A :=
  fun s => (s, Ok (f (snd s))).
Definition liftR {A} (r : result A) : M A := fun s => (s, r).
Definition log (m : ConsoleMsg) : M unit :=
  fun s => ((fst s, console env m (snd s)), Ok tt).

Notation "x <- m ;; k" := (bind m (fun x => k))
  (at level 61, m at next level, right associativity).
Notation "' pat <- m ;; k" := (bind m (fun x => match x with pat => k end))
  (at level 61, pat pattern, m at next level, right associativity).
Notation "m ;; k" := (bind m (fun _ => k))
  (at level 61, right associativity).

(** *** Construction and flags *)

Definition NewGenerator (config : Config) (dir : string) (w : World)
  : World * result Generator :=
  let rootTmp := Go.PathJoin [dir; ".cog/tmp"] in
  match os_MkdirAll env rootTmp 493 w with
  | (w1, Some err) => (w1, Err err)
  | (w1, None) =>
      let now := time_Now_Format env "20060102150405.000000" w1 in
      match os_MkdirTemp env rootTmp ("build" ++ now) w1 with
      | (w2, Err err) => (w2, Err err)
      | (w2, Ok tmpDir) =>
          match filepath_Rel env dir tmpDir with
          | Err err => (w2, Err err)
          | Ok relativeTmpDir =>
              (w2, Ok {| gConfig := config;
                         Dir := dir;
                         GOOS := runtime_GOOS env;
                         GOARCH := runtime_GOOS env;
                         useCudaBaseImage := true;
                         useCogBaseImage := false;
                         tmpDir := tmpDir;
                         relativeTmpDir := relativeTmpDir;
                         fileWalker := filepath_Walk env;
                         modelDirs := [];
                         modelFiles := [];
                         pythonRequirementsContents := "" |})
          end
      end
  end.

Definition SetUseCudaBaseImage (g : Generator) (argumentValue : string)
  : Generator :=
  {| gConfig := gConfig g; Dir := Dir g; GOOS := GOOS g; GOARCH := GOARCH g;
     useCudaBaseImage := negb (argumentValue =? "false");
     useCogBaseImage := useCogBaseImage g;
     tmpDir := tmpDir g; relativeTmpDir := relativeTmpDir g;
     fileWalker := fileWalker g;
     modelDirs := modelDirs g; modelFiles := modelFiles g;
     pythonRequirementsContents := pythonRequirementsContents g |}.

Definition SetUseCogBaseImage (g : Generator) (b : bool) : Generator :=
  {| gConfig := gConfig g; Dir := Dir g; GOOS := GOOS g; GOARCH := GOARCH g;
     useCudaBaseImage := useCudaBaseImage g;
     useCogBaseImage := b;
     tmpDir := tmpDir g; relativeTmpDir := relativeTmpDir g;
     fileWalker := fileWalker g;
     modelDirs := modelDirs g; modelFiles := modelFiles g;
     pythonRequirementsContents := pythonRequirementsContents g |}.

Definition IsUsingCogBaseImage (g : Generator) : bool := useCogBaseImage g.

Definition setModel (dirs files : list string) (g : Generator) : Generator :=
  {| gConfig := gConfig g; Dir := Dir g; GOOS := GOOS g; GOARCH := GOARCH g;
     useCudaBaseImage := useCudaBaseImage g;
     useCogBaseImage := useCogBaseImage g;
     tmpDir := tmpDir g; relativeTmpDir := relativeTmpDir g;
     fileWalker := fileWalker g;
     modelDirs := dirs; modelFiles := files;
     pythonRequirementsContents := pythonRequirementsContents g |}.

Definition setRequirements (contents : string) (g : Generator) : Generator :=
  {| gConfig := gConfig g; Dir := Dir g; GOOS := GOOS g; GOARCH := GOARCH g;
     useCudaBaseImage := useCudaBaseImage g;
     useCogBaseImage := useCogBaseImage g;
     tmpDir := tmpDir g; relativeTmpDir := relativeTmpDir g;
     fileWalker := fileWalker g;
     modelDirs := modelDirs g; modelFiles := modelFiles g;
     pythonRequirementsContents := contents |}.

(** *** Versions and the base image *)

Definition stripPatchVersion (versionString : string) : result (string * bool) :=
  if versionString =? "" then Ok ("", false)
  else
    match version_NewVersion env versionString with
    | Err _ => Err ("Invalid version: " ++ versionString)
    | Ok v =>
        let strippedVersion := Go.itoa (Major v) ++ "." ++ Go.itoa (Minor v) in
        let changed := negb (strippedVersion =? versionString) in
        Ok (strippedVersion, changed)
    end.

Definition BaseImage : M string :=
  g <- getG ;;
  let b := Build env (gConfig g) in
  if useCogBaseImage g then
    let cudaV := CUDA b in
    '(pythonV, changed) <- liftR (stripPatchVersion (PythonVersion b)) ;;
    (if changed : bool then
       log (Warnf ("Stripping patch version from Python version "
                   ++ PythonVersion b ++ " to " ++ pythonV))
     else ret tt) ;;
    '(torchV, changed) <-
       liftR (stripPatchVersion (fst (TorchVersion env (gConfig g)))) ;;
    (if changed : bool then
       log (Warnf ("Stripping patch version from Torch version "
                   ++ PythonVersion b ++ " to " ++ pythonV))
     else ret tt) ;;
    imageGenerator <- liftR (NewBaseImageGenerator env cudaV pythonV torchV) ;;
    ret (BaseImageName env (cudaVersion imageGenerator)
                       (pythonVersion imageGenerator)
                       (torchVersion imageGenerator))
  else if GPU b && useCudaBaseImage g then
    liftR (CUDABaseImageTag env (gConfig g))
  else ret ("python:" ++ PythonVersion b ++ "-slim").

(** *** Fixed fragments *)

Definition preamble : string :=
  Go.Join [
    "ENV DEBIAN_FRONTEND=noninteractive";
    "ENV PYTHONUNBUFFERED=1";
    "ENV LD_LIBRARY_PATH=$LD_LIBRARY_PATH:/usr/lib/x86_64-linux-gnu:/usr/local/nvidia/lib64:/usr/local/nvidia/bin";
    "ENV NVIDIA_DRIVER_CAPABILITIES=all"
  ] Go.LF.

Definition installTini : string :=
  let lines := [
    Go.Join [
      "RUN --mount=type=cache,target=/var/cache/apt,sharing=locked set -eux; " ++ Go.BS;
      "apt-get update -qq && " ++ Go.BS;
      "apt-get install -qqy --no-install-recommends curl; " ++ Go.BS;
      "rm -rf /var/lib/apt/lists/*; " ++ Go.BS;
      "TINI_VERSION=v0.19.0; " ++ Go.BS;
      "TINI_ARCH=" ++ Go.DQ ++ "$(dpkg --print-architecture)" ++ Go.DQ ++ "; " ++ Go.BS;
      "curl -sSL -o /sbin/tini " ++ Go.DQ ++ "https://github.com/krallin/tini/releases/download/${TINI_VERSION}/tini-${TINI_ARCH}" ++ Go.DQ ++ "; " ++ Go.BS;
      "chmod +x /sbin/tini"
    ] Go.LF;
    "ENTRYPOINT [" ++ Go.DQ ++ "/sbin/tini" ++ Go.DQ ++ ", " ++ Go.DQ ++ "--" ++ Go.DQ ++ "]"
  ] in
  Go.Join lines Go.LF.

(** The one-line instruction of the system-package block, for a given
    text of package names. *)
Definition aptInstallPrefix : string :=
  "RUN --mount=type=cache,target=/var/cache/apt,sharing=locked apt-get update -qq && apt-get install -qqy ".

Definition aptInstallSuffix : string := " && rm -rf /var/lib/apt/lists/*".

Definition aptInstalls (g : Generator) : result string :=
  let packages := SystemPackages (Build env (gConfig g)) in
  if Nat.eqb (List.length packages) 0 then Ok ""
  else
    let packages :=
      if useCogBaseImage g then
        slices_FilterString packages
          (fun pkg => negb (slices_ContainsString (baseImageSystemPackages env) pkg))
      else packages in
    Ok (aptInstallPrefix ++ Go.Join packages " " ++ aptInstallSuffix).

Definition installPythonCUDA (g : Generator) : result string :=
  let py := PythonVersion (Build env (gConfig g)) in
  Ok (Go.Join [
        "ENV PATH=" ++ Go.DQ ++ "/root/.pyenv/shims:/root/.pyenv/bin:$PATH" ++ Go.DQ;
        "RUN --mount=type=cache,target=/var/cache/apt,sharing=locked apt-get update -qq && apt-get install -qqy --no-install-recommends " ++ Go.BS;
        Go.TAB ++ "make " ++ Go.BS;
        Go.TAB ++ "build-essential " ++ Go.BS;
        Go.TAB ++ "libssl-dev " ++ Go.BS;
        Go.TAB ++ "zlib1g-dev " ++ Go.BS;
        Go.TAB ++ "libbz2-dev " ++ Go.BS;
        Go.TAB ++ "libreadline-dev " ++ Go.BS;
        Go.TAB ++ "libsqlite3-dev " ++ Go.BS;
        Go.TAB ++ "wget " ++ Go.BS;
        Go.TAB ++ "curl " ++ Go.BS;
        Go.TAB ++ "llvm " ++ Go.BS;
        Go.TAB ++ "libncurses5-dev " ++ Go.BS;
        Go.TAB ++ "libncursesw5-dev " ++ Go.BS;
        Go.TAB ++ "xz-utils " ++ Go.BS;
        Go.TAB ++ "tk-dev " ++ Go.BS;
        Go.TAB ++ "libffi-dev " ++ Go.BS;
        Go.TAB ++ "liblzma-dev " ++ Go.BS;
        Go.TAB ++ "git " ++ Go.BS;
        Go.TAB ++ "ca-certificates " ++ Go.BS;
        Go.TAB ++ "&& rm -rf /var/lib/apt/lists/*";
        ""
      ] Go.LF
      ++ Go.Join [
        "RUN curl -s -S -L https://raw.githubusercontent.com/pyenv/pyenv-installer/master/bin/pyenv-installer | bash && " ++ Go.BS;
        Go.TAB ++ "git clone https://github.com/momo-lab/pyenv-install-latest.git " ++ Go.DQ ++ "$(pyenv root)" ++ Go.DQ ++ "/plugins/pyenv-install-latest && " ++ Go.BS;
        Go.TAB ++ "pyenv install-latest " ++ Go.DQ ++ py ++ Go.DQ ++ " && " ++ Go.BS;
        Go.TAB ++ "pyenv global $(pyenv install-latest --print " ++ Go.DQ ++ py ++ Go.DQ ++ ") && " ++ Go.BS;
        Go.TAB ++ "pip install " ++ Go.DQ ++ "wheel<1" ++ Go.DQ
      ] Go.LF).

Definition installPython (g : Generator) : result string :=
  let b := Build env (gConfig g) in
  if GPU b && useCudaBaseImage g && negb (useCogBaseImage g) then
    installPythonCUDA g
  else Ok "".

(** *** Staged files and dependency installs *)

Definition writeTemp (filename contents : string) : M (list string * string) :=
  g <- getG ;;
  let path := filepath_Join env [tmpDir g; filename] in
  e <- liftW (os_MkdirAll env (filepath_Dir env path) 493) ;;
  match e with
  | Some err => fail ("Failed to write " ++ filename ++ ": " ++ err)
  | None =>
      e <- liftW (os_WriteFile env path contents 420) ;;
      match e with
      | Some err => fail ("Failed to write " ++ filename ++ ": " ++ err)
      | None =>
          ret (["COPY " ++ filepath_Join env [relativeTmpDir g; filename]
                ++ " /tmp/" ++ filename],
               "/tmp/" ++ filename)
      end
  end.

Definition installCog : M string :=
  let cogFilename := "cog-0.0.1.dev-py3-none-any.whl" in
  '(lines, containerPath) <- writeTemp cogFilename (cogWheelEmbed env) ;;
  let lines :=
    List.app lines
      ["RUN --mount=type=cache,target=/root/.cache/pip pip install -t /dep "
       ++ containerPath] in
  ret (Go.Join lines Go.LF).

(** [copyLine[0]]: indexing an empty slice panics. *)
Definition index0 (copyLine : list string) : M string :=
  match copyLine with
  | l0 :: _ => ret l0
  | [] => fail "panic: runtime error: index out of range [0] with length 0"
  end.

Definition pipInstalls : M string :=
  g <- getG ;;
  let excludePackages :=
    let (torchV, ok) := TorchVersion env (gConfig g) in
    if ok then ["torch==" ++ torchV] else [] in
  let excludePackages :=
    let (torchvisionV, ok) := TorchvisionVersion env (gConfig g) in
    if ok then List.app excludePackages ["torchvision==" ++ torchvisionV]
    else excludePackages in
  let (contents, err) :=
    PythonRequirementsForArch env (gConfig g) (GOOS g) (GOARCH g) excludePackages in
  modifyG (setRequirements contents) ;;
  match err with
  | Some e => fail e
  | None =>
      if Go.Trim contents "" =? "" then ret ""
      else
        log (Debugf ("Generated requirements.txt:" ++ Go.LF ++ contents)) ;;
        '(copyLine, containerPath) <- writeTemp "requirements.txt" contents ;;
        l0 <- index0 copyLine ;;
        ret (Go.Join [l0; "RUN pip install -r " ++ containerPath] Go.LF)
  end.

Definition pipInstallStage : M string :=
  installCog <- installCog ;;
  g <- getG ;;
  let (contents, err) :=
    PythonRequirementsForArch env (gConfig g) (GOOS g) (GOARCH g) [] in
  modifyG (setRequirements contents) ;;
  match err with
  | Some e => fail e
  | None =>
      let pipStageImage := "python:" ++ PythonVersion (Build env (gConfig g)) in
      if Go.Trim contents "" =? "" then
        ret ("FROM " ++ pipStageImage ++ " as deps" ++ Go.LF ++ installCog)
      else
        log (Debugf ("Generated requirements.txt:" ++ Go.LF ++ contents)) ;;
        '(copyLine, containerPath) <- writeTemp "requirements.txt" contents ;;
        let fromLine := "FROM " ++ pipStageImage ++ " as deps" in
        buildStageDeps <-
          readW (os_Getenv env "COG_EXPERIMENTAL_BUILD_STAGE_DEPS") ;;
        let fromLine :=
          if negb (buildStageDeps =? "") then
            fromLine ++ Go.LF ++ "RUN " ++ buildStageDeps
          else fromLine in
        l0 <- index0 copyLine ;;
        ret (Go.Join [
               fromLine;
               installCog;
               l0;
               "RUN --mount=type=cache,target=/root/.cache/pip pip install -t /dep -r "
               ++ containerPath
             ] Go.LF)
  end.

Definition copyPipPackagesFromInstallStage (g : Generator) : string :=
  let b := Build env (gConfig g) in
  let py := PythonVersion b in
  if GPU b && (useCudaBaseImage g || useCogBaseImage g) then
    Go.Join [
      "";
      "RUN --mount=type=bind,from=deps,source=/dep,target=/dep " ++ Go.BS;
      "    cp -rf /dep/* $(pyenv prefix)/lib/python*/site-packages; " ++ Go.BS;
      "    cp -rf /dep/bin/* $(pyenv prefix)/bin; " ++ Go.BS;
      "    pyenv rehash";
      ""
    ] Go.LF
  else "COPY --from=deps --link /dep /usr/local/lib/python" ++ py ++ "/site-packages".

(** *** Custom run commands *)

Definition multilineError (command : string) : error :=
  "One of the commands in 'run' contains a new line, which won't work. You need to create a new list item in YAML prefixed with '-' for each command."
  ++ Go.LF ++ Go.LF ++ "This is the offending line: " ++ command.

Definition secretMounts (ms : list Mount) : list string :=
  fold_left
    (fun mounts mount =>
       if MountType mount =? "secret" then
         List.app mounts
           ["--mount=type=secret,id=" ++ ID mount ++ ",target=" ++ Target mount]
       else mounts)
    ms [].

Fixpoint runLines (lines : list string) (runs : list RunItem)
  : result (list string) :=
  match runs with
  | [] => Ok lines
  | run :: rest =>
      let command := Go.TrimSpace (Command run) in
      if Go.Contains command Go.LF then Err (multilineError command)
      else if Nat.ltb 0 (List.length (Mounts run)) then
        let mounts := secretMounts (Mounts run) in
        runLines
          (List.app lines ["RUN " ++ Go.Join mounts " " ++ " " ++ command]) rest
      else runLines (List.app lines ["RUN " ++ command]) rest
  end.

Definition runCommands (g : Generator) : result string :=
  let b := Build env (gConfig g) in
  let runCommands :=
    fold_left
      (fun runCommands command =>
         List.app runCommands [{| Command := command; Mounts := [] |}])
      (PreInstall b) (Run b) in
  match runLines [] runCommands with
  | Err e => Err e
  | Ok lines => Ok (Go.Join lines Go.LF)
  end.

(** *** Assembly *)

Definition generateInitialSteps : M string :=
  baseImage <- BaseImage ;;
  g <- getG ;;
  installPython <- liftR (installPython g) ;;
  aptInstalls <- liftR (aptInstalls g) ;;
  runCommands <- liftR (runCommands g) ;;
  if useCogBaseImage g then
    pipInstalls <- pipInstalls ;;
    ret (joinStringsWithoutLineSpace [
           "#syntax=docker/dockerfile:1.4";
           "FROM " ++ baseImage;
           aptInstalls;
           pipInstalls;
           runCommands
         ])
  else
    pipInstallStage <- pipInstallStage ;;
    ret (joinStringsWithoutLineSpace [
           "#syntax=docker/dockerfile:1.4";
           pipInstallStage;
           "FROM " ++ baseImage;
           preamble;
           installTini;
           installPython;
           aptInstalls;
           copyPipPackagesFromInstallStage g;
           runCommands
         ]).

Definition WORKDIR : string := "WORKDIR /src".
Definition EXPOSE : string := "EXPOSE 5000".
Definition CMD : string :=
  "CMD [" ++ Go.DQ ++ "python" ++ Go.DQ ++ ", " ++ Go.DQ ++ "-m" ++ Go.DQ
  ++ ", " ++ Go.DQ ++ "cog.server.http" ++ Go.DQ ++ "]".
Definition COPY_ALL : string := "COPY . /src".

Definition GenerateModelBase : M string :=
  initialSteps <- generateInitialSteps ;;
  ret (Go.Join [initialSteps; WORKDIR; EXPOSE; CMD] Go.LF).

Definition GenerateDockerfileWithoutSeparateWeights : M string :=
  base <- GenerateModelBase ;;
  ret (joinStringsWithoutLineSpace [base; COPY_ALL]).

Definition generateForWeights : M (string * list string * list string) :=
  g <- getG ;;
  r <- liftW (weights_FindWeights env (fileWalker g)) ;;
  match r with
  | Err err => fail err
  | Ok (modelDirs, modelFiles) =>
      let dockerfileContents :=
        "#syntax=docker/dockerfile:1.4" ++ Go.LF ++ "FROM scratch" ++ Go.LF in
      let dockerfileContents :=
        fold_left
          (fun contents p =>
             contents ++ Go.LF ++ "COPY " ++ p ++ " " ++ Go.PathJoin ["/src"; p])
          (List.app modelDirs modelFiles) dockerfileContents in
      ret (dockerfileContents, modelDirs, modelFiles)
  end.

(** The loop that copies the initial steps into [base] and puts the
    weights stage in front of the first line that starts a stage. *)
Fixpoint injectWeights (imageName : string) (base lines : list string)
  : list string :=
  match lines with
  | [] => base
  | line :: rest =>
      if Go.HasPrefix line "FROM " then
        List.app
          (List.app base ["FROM " ++ (imageName ++ "-weights") ++ " AS " ++ "weights"])
          (line :: rest)
      else injectWeights imageName (List.app base [line]) rest
  end.

Definition weightCopy (p : string) : string :=
  "COPY --from=weights --link " ++ Go.PathJoin ["/src"; p] ++ " "
  ++ Go.PathJoin ["/src"; p].

Definition GenerateModelBaseWithSeparateWeights (imageName : string)
  : M (string * string * string) :=
  fun s =>
    match generateForWeights s with
    | (s1, Err err) =>
        ((setModel [] [] (fst s1), snd s1),
         Err ("Failed to generate Dockerfile for model weights files: " ++ err))
    | (s1, Ok (weightsBase, dirs, files)) =>
        (modifyG (setModel dirs files) ;;
         initialSteps <- generateInitialSteps ;;
         g <- getG ;;
         let initialStepsLines := Go.Split initialSteps Go.LFc in
         let base := injectWeights imageName [] initialStepsLines in
         let base :=
           fold_left (fun base p => List.app base [weightCopy p])
                     (List.app (modelDirs g) (modelFiles g)) base in
         let base := List.app base [WORKDIR; EXPOSE; CMD; COPY_ALL] in
         let dockerignoreContents :=
           makeDockerignoreForWeights (modelDirs g) (modelFiles g) in
         ret (weightsBase, joinStringsWithoutLineSpace base, dockerignoreContents))
          s1
    end.

End Generator.

Arguments Build {Config World FileWalker} c _.
Arguments runtime_GOOS {Config World FileWalker} c.
Arguments PythonRequirementsForArch {Config World FileWalker} c _ _ _ _.


(** ** Properties of texts used in the statements *)

(** The lines of a text. *)
Definition lines (text : string) : list string := Go.Split text Go.LFc.

(** The texts of a list, one after the other. *)
Definition catAll (l : list string) : string := fold_right append "" l.

(** A text without a line break. *)
Fixpoint hasByte (c : ascii) (s : string) : bool :=
  match s with
  | "" => false
  | String d s' => Ascii.eqb c d || hasByte c s'
  end.

Definition oneLine (s : string) : Prop := hasByte Go.LFc s = false.

(** A line that starts the way the instruction of the system-package
    block does. *)
Definition isAptInstallLine (line : string) : bool :=
  Go.HasPrefix line aptInstallPrefix.

Definition noAptInstallLine (plan : string) : bool :=
  forallb (fun line => negb (isAptInstallLine line)) (lines plan).


(** Whether a computation leaves a property of the generator in place. *)
Definition preserves {Config World FileWalker A : Type}
  (P : Generator Config FileWalker -> Prop)
  (m : M Config World FileWalker A) : Prop :=
  forall s, P (fst s) -> P (fst (fst (m s))).


(** The instruction emitted for one run command that passed the check. *)
Definition runLine (run : RunItem) : string :=
  let command := Go.TrimSpace (Command run) in
  if Nat.ltb 0 (List.length (Mounts run)) then
    "RUN " ++ Go.Join (secretMounts (Mounts run)) " " ++ " " ++ command
  else "RUN " ++ command.

Definition allRuns (b : BuildConfig) : list RunItem :=
  (Run b ++ map (fun command => {| Command := command; Mounts := [] |})
                (PreInstall b))%list.

Definition multiline (run : RunItem) : bool :=
  Go.Contains (Go.TrimSpace (Command run)) Go.LF.

(** ** A sample host

    A small instance of the collaborators, used to run the generator on
    concrete configurations. *)
Module Sample.

(** Modelled from the spec: [version.NewVersion] (package
    [pkg/util/version]) is not among the sources.  The spec asks that the
    text parse as a semantic version; the model reads
    major[.minor[.patch]], each a non-empty run of decimal digits. *)
Fixpoint digits (acc : Z) (s : string) : option Z :=
  match s with
  | "" => Some acc
  | String c s' =>
      let n := nat_of_ascii c in
      if Nat.leb 48 n && Nat.leb n 57 then
        digits (10 * acc + Z.of_nat (n - 48)) s'
      else None
  end.

Definition number (s : string) : option Z :=
  if s =? "" then None else digits 0 s.

Definition NewVersion (s : string) : result Version :=
  let bad := Err ("Invalid version " ++ s) in
  match map number (Go.Split s "."%char) with
  | [Some major] => Ok {| Major := major; Minor := 0 |}
  | [Some major; Some minor] => Ok {| Major := major; Minor := minor |}
  | [Some major; Some minor; Some _] => Ok {| Major := major; Minor := minor |}
  | _ => bad
  end.

Record Cfg := {
  build : BuildConfig;
  torch : string * bool;
  torchvision : string * bool;
  requirements : string;
  cudaTag : string
}.

Record Host := {
  written : list (string * string);
  logged : list ConsoleMsg;
  stageDeps : string
}.

(** A target below the base directory, relative to it. *)
Definition relTo (base target : string) : result string :=
  if String.prefix (base ++ "/") target then
    Ok (substring (String.length base + 1)
                  (String.length target - String.length base - 1) target)
  else Err ("Rel: can't make " ++ target ++ " relative to " ++ base).

(** What a walk of the model directory discovers: directories, files. *)
Definition Walker : Type := list string * list string.

Definition env : Collaborators Cfg Host Walker :=
  {| os_MkdirAll := fun _ _ w => (w, None);
     os_MkdirTemp := fun dir pattern w => (w, Ok (Go.PathJoin [dir; pattern ++ "1"]));
     os_WriteFile :=
       fun path contents _ w =>
         ({| written := (path, contents) :: written w;
             logged := logged w;
             stageDeps := stageDeps w |}, None);
     os_Getenv := fun _ w => stageDeps w;
     time_Now_Format := fun _ _ => "20240620123456.000000";
     runtime_GOOS := "linux";
     filepath_Join := Go.PathJoin;
     filepath_Dir := Go.PathDir;
     filepath_Rel := relTo;
     filepath_Walk := ([], []);
     console :=
       fun m w =>
         {| written := written w; logged := m :: logged w;
            stageDeps := stageDeps w |};
     cogWheelEmbed := "wheel";
     Build := build;
     TorchVersion := torch;
     TorchvisionVersion := torchvision;
     CUDABaseImageTag := fun c => Ok (cudaTag c);
     PythonRequirementsForArch := fun c _ _ _ => (requirements c, None);
     version_NewVersion := NewVersion;
     NewBaseImageGenerator :=
       fun cuda python torch =>
         Ok {| cudaVersion := cuda; pythonVersion := python; torchVersion := torch |};
     BaseImageName :=
       fun cuda python torch =>
         "cog-base:cuda" ++ cuda ++ "-python" ++ python ++ "-torch" ++ torch;
     baseImageSystemPackages := [];
     weights_FindWeights := fun fw w => (w, Ok fw) |}.

Definition host : Host := {| written := []; logged := []; stageDeps := "" |}.

Definition buildOf (gpu : bool) (packages : list string) (run : list RunItem)
  : BuildConfig :=
  {| GPU := gpu; CUDA := "11.8"; PythonVersion := "3.10";
     SystemPackages := packages; Run := run; PreInstall := [] |}.

Definition cfgOf (b : BuildConfig) : Cfg :=
  {| build := b; torch := ("", false); torchvision := ("", false);
     requirements := ""; cudaTag := "nvidia/cuda:11.8.0-cudnn8-devel-ubuntu22.04" |}.

(** A generator as [NewGenerator] builds it, with a given walker. *)
Definition generatorOf (c : Cfg) (fw : Walker) : Generator Cfg Walker :=
  {| gConfig := c; Dir := "/model"; GOOS := "linux"; GOARCH := "linux";
     useCudaBaseImage := true; useCogBaseImage := false;
     tmpDir := "/model/.cog/tmp/build20240620123456.0000001";
     relativeTmpDir := ".cog/tmp/build20240620123456.0000001";
     fileWalker := fw;
     modelDirs := []; modelFiles := [];
     pythonRequirementsContents := "" |}.

(** A CPU model with one weights directory and one weights file. *)
Definition withWeights : Generator Cfg Walker :=
  generatorOf (cfgOf (buildOf false [] [])) (["weights"], ["a.bin"]).

(** A GPU model without system packages. *)
Definition gpuModel : Generator Cfg Walker :=
  generatorOf (cfgOf (buildOf true [] [])) ([], []).


End Sample.

(** ** Further notions used in the statements *)

Definition pragma : string := "#syntax=docker/dockerfile:1.4".

(** The directive that opens the weights stage of a plan. *)
Definition weightsDirective (imageName : string) : string :=
  "FROM " ++ (imageName ++ "-weights") ++ " AS " ++ "weights".

(** A line that opens a build stage. *)
Definition isFrom (line : string) : bool := Go.HasPrefix line "FROM ".

(** The copy instruction of the weights stage for one path. *)
Definition weightsStageCopy (p : string) : string :=
  "COPY " ++ p ++ " " ++ Go.PathJoin ["/src"; p].

(** The token emitted for a secret mount. *)
Definition secretToken (mount : Mount) : string :=
  "--mount=type=secret,id=" ++ ID mount ++ ",target=" ++ Target mount.

Definition isSecret (mount : Mount) : bool := MountType mount =? "secret".

(** Two generators that differ at most in the cached requirements text. *)
Definition sameButRequirements {Config FileWalker : Type}
  (g g' : Generator Config FileWalker) : Prop :=
  setRequirements "" g' = setRequirements "" g.

(** Two generators that differ at most in the discovered weights and the
    cached requirements text. *)
Definition sameButWeightsAndRequirements {Config FileWalker : Type}
  (g g' : Generator Config FileWalker) : Prop :=
  setModel [] [] (setRequirements "" g') = setModel [] [] (setRequirements "" g).

(** The pins left out of the combined dependency install: the tensor
    library and the vision library, when the configuration pins them. *)
Definition exclusions {Config World FileWalker}
  (env : Collaborators Config World FileWalker)
  (g : Generator Config FileWalker) : list string :=
  List.app
    (let (v, ok) := TorchVersion env (gConfig g) in
     if ok then ["torch==" ++ v] else [])
    (let (v, ok) := TorchvisionVersion env (gConfig g) in
     if ok then ["torchvision==" ++ v] else []).

(** The collaborators with another weights discovery. *)
Definition withFindWeights {Config World FileWalker}
  (env : Collaborators Config World FileWalker)
  (f : FileWalker -> World -> World * result (list string * list string))
  : Collaborators Config World FileWalker :=
  {| os_MkdirAll := os_MkdirAll env;
     os_MkdirTemp := os_MkdirTemp env;
     os_WriteFile := os_WriteFile env;
     os_Getenv := os_Getenv env;
     time_Now_Format := time_Now_Format env;
     runtime_GOOS := runtime_GOOS env;
     filepath_Join := filepath_Join env;
     filepath_Dir := filepath_Dir env;
     filepath_Rel := filepath_Rel env;
     filepath_Walk := filepath_Walk env;
     console := console env;
     cogWheelEmbed := cogWheelEmbed env;
     Build := Build env;
     TorchVersion := TorchVersion env;
     TorchvisionVersion := TorchvisionVersion env;
     CUDABaseImageTag := CUDABaseImageTag env;
     PythonRequirementsForArch := PythonRequirementsForArch env;
     version_NewVersion := version_NewVersion env;
     NewBaseImageGenerator := NewBaseImageGenerator env;
     BaseImageName := BaseImageName env;
     baseImageSystemPackages := baseImageSystemPackages env;
     weights_FindWeights := f |}.

(** The collaborators on a host where writing a file fails. *)
Definition withWriteFile {Config World FileWalker}
  (env : Collaborators Config World FileWalker)
  (f : string -> string -> N -> World -> World * option error)
  : Collaborators Config World FileWalker :=
  {| os_MkdirAll := os_MkdirAll env;
     os_MkdirTemp := os_MkdirTemp env;
     os_WriteFile := f;
     os_Getenv := os_Getenv env;
     time_Now_Format := time_Now_Format env;
     runtime_GOOS := runtime_GOOS env;
     filepath_Join := filepath_Join env;
     filepath_Dir := filepath_Dir env;
     filepath_Rel := filepath_Rel env;
     filepath_Walk := filepath_Walk env;
     console := console env;
     cogWheelEmbed := cogWheelEmbed env;
     Build := Build env;
     TorchVersion := TorchVersion env;
     TorchvisionVersion := TorchvisionVersion env;
     CUDABaseImageTag := CUDABaseImageTag env;
     PythonRequirementsForArch := PythonRequirementsForArch env;
     version_NewVersion := version_NewVersion env;
     NewBaseImageGenerator := NewBaseImageGenerator env;
     BaseImageName := BaseImageName env;
     baseImageSystemPackages := baseImageSystemPackages env;
     weights_FindWeights := weights_FindWeights env |}.

(** * Properties *)

(** ** The library functions on small inputs *)

Example Split_keeps_empty_fields :
  Go.Split ("a" ++ Go.LF ++ Go.LF ++ "b") Go.LFc = ["a"; ""; "b"]
  /\ Go.Split "" Go.LFc = [""].
Proof. split; reflexivity. Qed.

Example TrimSpace_both_ends :
  Go.TrimSpace ("  make install " ++ Go.LF) = "make install"
  /\ Go.TrimSpace (Go.TAB ++ "a" ++ Go.LF ++ "b" ++ Go.LF) = "a" ++ Go.LF ++ "b".
Proof. split; reflexivity. Qed.

Example itoa_decimal :
  Go.itoa 10 = "10" /\ Go.itoa 0 = "0" /\ Go.itoa (-3) = "-3".
Proof. repeat split; reflexivity. Qed.

Example PathJoin_cleans :
  Go.PathJoin ["/src"; "weights/a.bin"] = "/src/weights/a.bin"
  /\ Go.PathJoin ["/src"; "../x/./y//z"] = "/x/y/z"
  /\ Go.PathJoin ["/src"; ""] = "/src"
  /\ Go.Clean "a/../.." = ".."
  /\ Go.Clean "" = "."
  /\ Go.PathDir "/model/.cog/tmp/b/requirements.txt" = "/model/.cog/tmp/b"
  /\ Go.PathDir "a" = ".".
Proof. repeat split; reflexivity. Qed.

Example NewGenerator_sample :
  snd (NewGenerator Sample.env (Sample.cfgOf (Sample.buildOf true [] []))
         "/model" Sample.host)
  = Ok Sample.gpuModel.
Proof. reflexivity. Qed.

(** ** Texts and lines *)

Lemma append_assoc (a b c : string) : (a ++ b) ++ c = a ++ (b ++ c).
Proof. induction a as [|x a IH]; simpl; [reflexivity | now rewrite IH]. Qed.

Lemma append_empty_r (a : string) : a ++ "" = a.
Proof. induction a as [|x a IH]; simpl; [reflexivity | now rewrite IH]. Qed.

Lemma hasByte_append c (a b : string) :
  hasByte c (a ++ b) = hasByte c a || hasByte c b.
Proof.
  induction a as [|x a IH]; simpl; [reflexivity|].
  now rewrite IH, orb_assoc.
Qed.

Lemma Contains_LF (s : string) : Go.Contains s Go.LF = hasByte Go.LFc s.
Proof.
  induction s as [|x s IH]; [reflexivity|].
  cbn [Go.Contains hasByte]. rewrite IH. f_equal.
  unfold Go.LF. cbn [String.prefix].
  destruct (ascii_dec Go.LFc x) as [E|E].
  - rewrite (proj2 (Ascii.eqb_eq _ _) E). now destruct s.
  - now rewrite (proj2 (Ascii.eqb_neq _ _) E).
Qed.

Lemma Split_cons_sep sep (s : string) :
  Go.Split (String sep s) sep = "" :: Go.Split s sep.
Proof.
  unfold Go.Split. cbn [Go.fields]. destruct (Go.fields sep s).
  now rewrite Ascii.eqb_refl.
Qed.

Lemma Split_cons_other sep c (s : string) :
  Ascii.eqb c sep = false ->
  Go.Split (String c s) sep =
  match Go.Split s sep with
  | hd :: tl => String c hd :: tl
  | [] => [String c ""]
  end.
Proof.
  intros E. unfold Go.Split. cbn [Go.fields]. destruct (Go.fields sep s).
  now rewrite E.
Qed.

Lemma Split_not_nil sep (s : string) : Go.Split s sep <> [].
Proof. unfold Go.Split. now destruct (Go.fields sep s). Qed.

(** Splitting a text that has no separator gives it back. *)
Lemma Split_oneLine sep (s : string) :
  hasByte sep s = false -> Go.Split s sep = [s].
Proof.
  induction s as [|c s IH]; [reflexivity|]. cbn [hasByte]. intros H.
  apply orb_false_elim in H as [Hc Hs].
  rewrite Split_cons_other by now rewrite Ascii.eqb_sym.
  now rewrite (IH Hs).
Qed.

(** Splitting distributes over a separator. *)
Lemma Split_append sep (a b : string) :
  Go.Split (a ++ String sep b) sep = (Go.Split a sep ++ Go.Split b sep)%list.
Proof.
  induction a as [|c a IH].
  - cbn [append]. now rewrite Split_cons_sep.
  - cbn [append]. destruct (Ascii.eqb c sep) eqn:E.
    + apply Ascii.eqb_eq in E. subst c. now rewrite !Split_cons_sep, IH.
    + rewrite !Split_cons_other, IH by assumption.
      destruct (Go.Split a sep) eqn:Ea; [now apply Split_not_nil in Ea|].
      reflexivity.
Qed.

(** No field of a split contains the separator. *)
Lemma Split_fields_free sep (s l : string) :
  In l (Go.Split s sep) -> hasByte sep l = false.
Proof.
  revert l. induction s as [|c s IH]; intros l.
  - cbn. intros [<-|[]]. reflexivity.
  - destruct (Ascii.eqb c sep) eqn:E.
    + apply Ascii.eqb_eq in E. subst c. rewrite Split_cons_sep.
      intros [<-|H]; [reflexivity | now apply IH].
    + rewrite Split_cons_other by assumption.
      destruct (Go.Split s sep) as [|hd tl] eqn:Es.
      * now apply Split_not_nil in Es.
      * intros [<-|H].
        -- cbn [hasByte]. rewrite Ascii.eqb_sym, E. apply IH. now left.
        -- apply IH. now right.
Qed.

(** A byte of a field is a byte of the text. *)
Lemma Split_fields_bytes c sep (s l : string) :
  In l (Go.Split s sep) -> hasByte c l = true -> hasByte c s = true.
Proof.
  revert l. induction s as [|d s IH]; intros l.
  - cbn. intros [<-|[]]. discriminate.
  - destruct (Ascii.eqb d sep) eqn:E.
    + apply Ascii.eqb_eq in E. subst d. rewrite Split_cons_sep.
      intros [<-|H] Hc; [discriminate|].
      cbn [hasByte]. rewrite (IH _ H Hc). apply orb_true_r.
    + rewrite Split_cons_other by assumption.
      destruct (Go.Split s sep) as [|hd tl] eqn:Es.
      * now apply Split_not_nil in Es.
      * intros [<-|H] Hc; cbn [hasByte] in *.
        -- apply orb_true_iff in Hc as [Hc|Hc]; [now rewrite Hc|].
           rewrite (IH hd (or_introl eq_refl) Hc). apply orb_true_r.
        -- rewrite (IH l (or_intror H) Hc). apply orb_true_r.
Qed.

(** Joining the lines of a text gives the text back. *)
Lemma Join_Split (s : string) : Go.Join (lines s) Go.LF = s.
Proof.
  unfold lines, Go.Join. induction s as [|c s IH]; [reflexivity|].
  destruct (Ascii.eqb c Go.LFc) eqn:E.
  - apply Ascii.eqb_eq in E. subst c. rewrite Split_cons_sep.
    destruct (Go.Split s Go.LFc) as [|hd tl] eqn:Es.
    + now apply Split_not_nil in Es.
    + cbn [String.concat] in *. now rewrite IH.
  - rewrite Split_cons_other by assumption.
    destruct (Go.Split s Go.LFc) as [|hd tl] eqn:Es.
    + now apply Split_not_nil in Es.
    + destruct tl; cbn [String.concat append] in *; now rewrite IH.
Qed.

(** The lines of joined texts are the lines of each, in order. *)
Lemma lines_Join (ls : list string) :
  ls <> [] ->
  lines (Go.Join ls Go.LF) = flat_map lines ls.
Proof.
  unfold lines, Go.Join. induction ls as [|l ls IH]; [congruence|]. intros _.
  destruct ls as [|l' ls].
  - cbn. now rewrite app_nil_r.
  - change (String.concat Go.LF (l :: l' :: ls))
      with (l ++ String Go.LFc (String.concat Go.LF (l' :: ls))).
    rewrite Split_append, IH by congruence. reflexivity.
Qed.

Lemma flat_map_oneLine (ls : list string) :
  Forall oneLine ls -> flat_map lines ls = ls.
Proof.
  induction 1 as [|l ls Hl _ IH]; [reflexivity|].
  cbn [flat_map]. unfold lines at 1. rewrite (Split_oneLine _ _ Hl).
  now rewrite IH.
Qed.

Lemma lines_Join_oneLine (ls : list string) :
  ls <> [] -> Forall oneLine ls -> lines (Go.Join ls Go.LF) = ls.
Proof. intros Hn Hl. now rewrite lines_Join, flat_map_oneLine. Qed.

Lemma flat_map_lines_oneLine (chunks : list string) :
  Forall oneLine (flat_map lines chunks).
Proof.
  apply Forall_forall. intros l H. apply in_flat_map in H as (c & _ & H).
  exact (Split_fields_free _ _ _ H).
Qed.

(** ** Dropping empty lines *)

Lemma filterEmpty_app (a b : list string) :
  filterEmpty (a ++ b) = (filterEmpty a ++ filterEmpty b)%list.
Proof.
  induction a as [|x a IH]; [reflexivity|].
  cbn [filterEmpty app]. destruct (negb (x =? "")); cbn; now rewrite IH.
Qed.

Lemma filterEmpty_In (l : list string) (x : string) :
  In x (filterEmpty l) <-> In x l /\ x <> "".
Proof.
  induction l as [|y l IH]; [cbn; tauto|].
  cbn [filterEmpty]. destruct (String.eqb_spec y "") as [E|E]; cbn [negb In].
  - rewrite IH. subst y. intuition congruence.
  - rewrite IH. intuition congruence.
Qed.

Lemma filterEmpty_id (l : list string) :
  ~ In "" l -> filterEmpty l = l.
Proof.
  induction l as [|y l IH]; [reflexivity|]. intros H.
  cbn [filterEmpty]. destruct (String.eqb_spec y "") as [E|E]; cbn [negb].
  - exfalso. apply H. now left.
  - f_equal. apply IH. intros Hin. apply H. now right.
Qed.

Lemma filterEmpty_idem (l : list string) :
  filterEmpty (filterEmpty l) = filterEmpty l.
Proof. apply filterEmpty_id. rewrite filterEmpty_In. tauto. Qed.

Lemma filterEmpty_Forall (P : string -> Prop) (l : list string) :
  Forall P l -> Forall P (filterEmpty l).
Proof.
  rewrite !Forall_forall. intros H x Hx. apply filterEmpty_In in Hx. now apply H.
Qed.

(** ** Normalization *)

Lemma fold_left_lines (chunks acc : list string) :
  fold_left (fun lines chunk => (lines ++ Go.Split chunk Go.LFc)%list) chunks acc
  = (acc ++ flat_map lines chunks)%list.
Proof.
  revert acc. induction chunks as [|c cs IH]; intros acc; cbn.
  - now rewrite app_nil_r.
  - rewrite IH, <- app_assoc. reflexivity.
Qed.

Lemma joinStringsWithoutLineSpace_eq (chunks : list string) :
  joinStringsWithoutLineSpace chunks
  = Go.Join (filterEmpty (flat_map lines chunks)) Go.LF.
Proof. unfold joinStringsWithoutLineSpace. now rewrite fold_left_lines. Qed.

(** The lines of a normalized text: the non-empty lines of the chunks. *)
Lemma lines_joinStrings (chunks : list string) :
  filterEmpty (flat_map lines chunks) <> [] ->
  lines (joinStringsWithoutLineSpace chunks)
  = filterEmpty (flat_map lines chunks).
Proof.
  intros Hn. rewrite joinStringsWithoutLineSpace_eq.
  apply lines_Join_oneLine; [assumption|].
  apply filterEmpty_Forall, flat_map_lines_oneLine.
Qed.

Lemma joinStrings_idempotent (chunks : list string) :
  joinStringsWithoutLineSpace [joinStringsWithoutLineSpace chunks]
  = joinStringsWithoutLineSpace chunks.
Proof.
  rewrite (joinStringsWithoutLineSpace_eq [_]). cbn [flat_map]. rewrite app_nil_r.
  destruct (filterEmpty (flat_map lines chunks)) as [|l ls] eqn:E.
  - rewrite joinStringsWithoutLineSpace_eq, E. reflexivity.
  - rewrite lines_joinStrings, filterEmpty_idem by (rewrite E; discriminate).
    now rewrite joinStringsWithoutLineSpace_eq.
Qed.

(** C8: normalizing a text is idempotent: normalizing the result of a
    normalization gives it back, and a text none of whose lines is empty is
    returned unchanged. *)
Theorem normalization_idempotent :
  (forall chunks : list string,
      joinStringsWithoutLineSpace [joinStringsWithoutLineSpace chunks]
      = joinStringsWithoutLineSpace chunks)
  /\ (forall text : string,
         ~ In "" (lines text) -> joinStringsWithoutLineSpace [text] = text).
Proof.
  split; [exact joinStrings_idempotent|].
  intros text H. rewrite joinStringsWithoutLineSpace_eq. cbn [flat_map].
  rewrite app_nil_r, (filterEmpty_id _ H). apply Join_Split.
Qed.

Lemma normalization_idempotent_witness :
  joinStringsWithoutLineSpace ["FROM scratch" ++ Go.LF ++ "COPY . /src"]
  = "FROM scratch" ++ Go.LF ++ "COPY . /src".
Proof.
  apply (proj2 normalization_idempotent ("FROM scratch" ++ Go.LF ++ "COPY . /src")).
  vm_compute. intros [H|[H|[]]]; discriminate H.
Defined.

(** ** The ignore file *)

Lemma fold_left_append (f : string -> string) (l : list string) (init : string) :
  fold_left (fun contents p => contents ++ f p) l init
  = init ++ catAll (map f l).
Proof.
  revert init. induction l as [|p l IH]; intros init; cbn.
  - now rewrite append_empty_r.
  - now rewrite IH, append_assoc.
Qed.

(** C7: the ignore text is the fixed header, then two lines per directory
    (its name, and the recursive wildcard under it), then one line per file,
    each list in its own order and with repeated paths repeated. *)
Theorem makeDockerignoreForWeights_spec :
  (forall dirs files : list string,
      makeDockerignoreForWeights dirs files
      = DockerignoreHeader
        ++ catAll (map (fun d => d ++ Go.LF ++ d ++ "/**/*" ++ Go.LF) dirs)
        ++ catAll (map (fun f => f ++ Go.LF) files))
  /\ makeDockerignoreForWeights ["weights"] ["a.bin"]
     = DockerignoreHeader
       ++ "weights" ++ Go.LF ++ "weights/**/*" ++ Go.LF ++ "a.bin" ++ Go.LF
  /\ makeDockerignoreForWeights ["w"; "w"] ["f"; "f"]
     = DockerignoreHeader
       ++ "w" ++ Go.LF ++ "w/**/*" ++ Go.LF ++ "w" ++ Go.LF ++ "w/**/*" ++ Go.LF
       ++ "f" ++ Go.LF ++ "f" ++ Go.LF.
Proof.
  split; [|split; reflexivity].
  intros dirs files. unfold makeDockerignoreForWeights.
  rewrite (fold_left_append (fun p => p ++ Go.LF) files).
  rewrite (fold_left_append (fun p => p ++ Go.LF ++ p ++ "/**/*" ++ Go.LF) dirs).
  reflexivity.
Qed.

(** ** Flags, versions and the base image *)

Ltac run_monad :=
  unfold bind, getG, modifyG, liftW, readW, liftR, log, ret, fail;
  cbn [fst snd].

Section GeneratorFacts.

Variables (Config World FileWalker : Type).
Variable env : Collaborators Config World FileWalker.

(** C9: the accelerator base image is switched off by the argument
    [false] and by nothing else. *)
Theorem SetUseCudaBaseImage_spec (g : Generator Config FileWalker)
  (argumentValue : string) :
  useCudaBaseImage (SetUseCudaBaseImage g argumentValue)
  = negb (argumentValue =? "false")
  /\ (useCudaBaseImage (SetUseCudaBaseImage g argumentValue) = false
      <-> argumentValue = "false")
  /\ useCudaBaseImage (SetUseCudaBaseImage g "true") = true
  /\ useCudaBaseImage (SetUseCudaBaseImage g "auto") = true
  /\ useCudaBaseImage (SetUseCudaBaseImage g "asdf") = true
  /\ useCudaBaseImage (SetUseCudaBaseImage g "") = true
  /\ useCudaBaseImage (SetUseCudaBaseImage g "False") = true.
Proof.
  cbn [SetUseCudaBaseImage useCudaBaseImage].
  split; [reflexivity|]. split; [|repeat split; reflexivity].
  destruct (String.eqb_spec argumentValue "false"); cbn; split;
    congruence.
Qed.

(** C4, for any version parser: the empty text is returned unchanged; a
    text the parser accepts becomes major.minor, and is reported changed
    exactly when that differs from the text; a text the parser rejects is an
    error that quotes it. *)
Lemma stripPatchVersion_cases (v : string) :
  (v = "" -> stripPatchVersion env v = Ok ("", false))
  /\ (forall ver, v <> "" -> version_NewVersion env v = Ok ver ->
        exists normalized changed,
          stripPatchVersion env v = Ok (normalized, changed)
          /\ normalized = Go.itoa (Major ver) ++ "." ++ Go.itoa (Minor ver)
          /\ (changed = true <-> normalized <> v))
  /\ (forall e, v <> "" -> version_NewVersion env v = Err e ->
        stripPatchVersion env v = Err ("Invalid version: " ++ v)).
Proof.
  unfold stripPatchVersion. repeat split.
  - intros ->. reflexivity.
  - intros ver Hne Hp. apply String.eqb_neq in Hne. rewrite Hne, Hp.
    eexists _, _. split; [reflexivity|]. split; [reflexivity|].
    rewrite negb_true_iff. apply String.eqb_neq.
  - intros e Hne Hp. apply String.eqb_neq in Hne. now rewrite Hne, Hp.
Qed.

(** [BaseImage] only writes to the console: the generator is unchanged. *)
Lemma BaseImage_keeps (g : Generator Config FileWalker) (w : World) :
  fst (fst (BaseImage env (g, w))) = g.
Proof.
  unfold BaseImage. run_monad.
  destruct (useCogBaseImage g).
  - destruct (stripPatchVersion env (PythonVersion (Build env (gConfig g))))
      as [[py c1]|e]; [|reflexivity].
    destruct c1; cbn [fst snd];
      (destruct (stripPatchVersion env (fst (TorchVersion env (gConfig g))))
        as [[t c2]|e]; [|reflexivity]);
      destruct c2; cbn [fst snd];
      destruct (NewBaseImageGenerator env _ py t); reflexivity.
  - destruct (GPU (Build env (gConfig g)) && useCudaBaseImage g); reflexivity.
Qed.

(** C3: the base image is resolved by exactly one of three strategies, in
    this order: with the engine-base flag, the name that encodes the triple
    the base-image generator validated, or the error met on the way;
    otherwise, with the GPU and accelerator-base flags, the accelerator tag
    of the configuration; otherwise python:VERSION-slim. *)
Theorem BaseImage_strategies (g : Generator Config FileWalker) (w : World) :
  let b := Build env (gConfig g) in
  (useCogBaseImage g = true ->
   snd (BaseImage env (g, w))
   = match stripPatchVersion env (PythonVersion b) with
     | Err e => Err e
     | Ok (pythonV, _) =>
         match stripPatchVersion env (fst (TorchVersion env (gConfig g))) with
         | Err e => Err e
         | Ok (torchV, _) =>
             match NewBaseImageGenerator env (CUDA b) pythonV torchV with
             | Err e => Err e
             | Ok ig =>
                 Ok (BaseImageName env (cudaVersion ig) (pythonVersion ig)
                                   (torchVersion ig))
             end
         end
     end)
  /\ (useCogBaseImage g = false -> GPU b && useCudaBaseImage g = true ->
      BaseImage env (g, w) = ((g, w), CUDABaseImageTag env (gConfig g)))
  /\ (useCogBaseImage g = false -> GPU b && useCudaBaseImage g = false ->
      BaseImage env (g, w) = ((g, w), Ok ("python:" ++ PythonVersion b ++ "-slim"))).
Proof.
  intros b. subst b. unfold BaseImage. run_monad. repeat split.
  - intros ->.
    destruct (stripPatchVersion env (PythonVersion (Build env (gConfig g))))
      as [[py c1]|e]; [|reflexivity].
    destruct c1; cbn [fst snd];
      (destruct (stripPatchVersion env (fst (TorchVersion env (gConfig g))))
        as [[t c2]|e]; [|reflexivity]);
      destruct c2; cbn [fst snd];
      destruct (NewBaseImageGenerator env _ py t); reflexivity.
  - intros -> ->. reflexivity.
  - intros -> ->. reflexivity.
Qed.

End GeneratorFacts.

Lemma BaseImage_strategies_witness :
  let plain :=
    Sample.generatorOf (Sample.cfgOf (Sample.buildOf false [] [])) ([], []) in
  let gpu :=
    Sample.generatorOf (Sample.cfgOf (Sample.buildOf true [] [])) ([], []) in
  snd (BaseImage Sample.env (SetUseCogBaseImage gpu true, Sample.host))
  = Ok "cog-base:cuda11.8-python3.10-torch"
  /\ snd (BaseImage Sample.env (gpu, Sample.host))
     = Ok "nvidia/cuda:11.8.0-cudnn8-devel-ubuntu22.04"
  /\ snd (BaseImage Sample.env (plain, Sample.host)) = Ok "python:3.10-slim".
Proof.
  intros plain gpu. split; [|split].
  - rewrite (proj1 (BaseImage_strategies Sample.env (SetUseCogBaseImage gpu true)
                      Sample.host) eq_refl).
    reflexivity.
  - rewrite (proj1 (proj2 (BaseImage_strategies Sample.env gpu Sample.host))
               eq_refl eq_refl).
    reflexivity.
  - rewrite (proj2 (proj2 (BaseImage_strategies Sample.env plain Sample.host))
               eq_refl eq_refl).
    reflexivity.
Defined.

(** C4: [stripPatchVersion] returns the empty text unchanged; keeps
    major.minor of a text that parses, reporting a change exactly when the
    result differs from the text; and fails on a text that does not parse.
    So 3.10.5 gives 3.10 (changed), 3.10 gives 3.10 (unchanged) and
    not-a-version is an error, for every parser that reads the first two as
    major 3, minor 10 and rejects the third, the sample one among them. *)
Theorem stripPatchVersion_spec :
  (forall (Config World FileWalker : Type)
          (env : Collaborators Config World FileWalker),
      stripPatchVersion env "" = Ok ("", false)
      /\ (forall v ver, v <> "" -> version_NewVersion env v = Ok ver ->
            exists normalized changed,
              stripPatchVersion env v = Ok (normalized, changed)
              /\ normalized = Go.itoa (Major ver) ++ "." ++ Go.itoa (Minor ver)
              /\ (changed = true <-> normalized <> v))
      /\ (forall v e, v <> "" -> version_NewVersion env v = Err e ->
            stripPatchVersion env v = Err ("Invalid version: " ++ v))
      /\ (forall ver, version_NewVersion env "3.10.5" = Ok ver ->
            Major ver = 3%Z -> Minor ver = 10%Z ->
            stripPatchVersion env "3.10.5" = Ok ("3.10", true))
      /\ (forall ver, version_NewVersion env "3.10" = Ok ver ->
            Major ver = 3%Z -> Minor ver = 10%Z ->
            stripPatchVersion env "3.10" = Ok ("3.10", false))
      /\ (forall e, version_NewVersion env "not-a-version" = Err e ->
            stripPatchVersion env "not-a-version"
            = Err "Invalid version: not-a-version"))
  /\ stripPatchVersion Sample.env "3.10.5" = Ok ("3.10", true)
  /\ stripPatchVersion Sample.env "3.10" = Ok ("3.10", false)
  /\ stripPatchVersion Sample.env "" = Ok ("", false)
  /\ stripPatchVersion Sample.env "not-a-version"
     = Err "Invalid version: not-a-version".
Proof.
  split; [|repeat split; reflexivity].
  intros Config World FileWalker env.
  split; [reflexivity|]. split; [|split; [|split; [|split]]].
  - intros v ver Hne Hp. exact (proj1 (proj2 (stripPatchVersion_cases env v)) ver Hne Hp).
  - intros v e Hne Hp.
    exact (proj2 (proj2 (stripPatchVersion_cases env v)) e Hne Hp).
  - intros ver Hp HM Hm. unfold stripPatchVersion. cbn [String.eqb Ascii.eqb].
    rewrite Hp, HM, Hm. reflexivity.
  - intros ver Hp HM Hm. unfold stripPatchVersion.
    rewrite Hp, HM, Hm. reflexivity.
  - intros e Hp. unfold stripPatchVersion. rewrite Hp. reflexivity.
Qed.

Lemma stripPatchVersion_spec_witness :
  stripPatchVersion Sample.env "3.10.5" = Ok ("3.10", true)
  /\ stripPatchVersion Sample.env "3.10" = Ok ("3.10", false)
  /\ stripPatchVersion Sample.env "not-a-version"
     = Err "Invalid version: not-a-version".
Proof.
  pose proof (proj1 stripPatchVersion_spec _ _ _ Sample.env)
    as (_ & _ & _ & H1 & H2 & H3).
  split; [|split].
  - apply (H1 {| Major := 3; Minor := 10 |}); reflexivity.
  - apply (H2 {| Major := 3; Minor := 10 |}); reflexivity.
  - apply (H3 "Invalid version not-a-version"). reflexivity.
Defined.

(** ** Run commands *)

Section RunCommands.

Variables (Config World FileWalker : Type).
Variable env : Collaborators Config World FileWalker.

Lemma fold_left_snoc {A B} (f : B -> A) (l : list B) (init : list A) :
  fold_left (fun acc x => List.app acc [f x]) l init = (init ++ map f l)%list.
Proof.
  revert init. induction l as [|x l IH]; intros init; cbn.
  - now rewrite app_nil_r.
  - now rewrite IH, <- app_assoc.
Qed.

(** The loop stops at the first command that still has a line break after
    trimming; otherwise it emits one instruction per command. *)
Lemma runLines_eq (runs : list RunItem) (acc : list string) :
  runLines acc runs
  = match find multiline runs with
    | Some run => Err (multilineError (Go.TrimSpace (Command run)))
    | None => Ok (acc ++ map runLine runs)%list
    end.
Proof.
  revert acc. induction runs as [|run runs IH]; intros acc.
  - cbn. now rewrite app_nil_r.
  - cbn [runLines find]. unfold multiline at 1.
    destruct (Go.Contains (Go.TrimSpace (Command run)) Go.LF); [reflexivity|].
    destruct (Nat.ltb 0 (List.length (Mounts run))) eqn:Em;
      rewrite IH; destruct (find multiline runs); try reflexivity;
      cbn [map]; unfold runLine; rewrite Em, <- app_assoc; reflexivity.
Qed.

Lemma runCommands_eq (g : Generator Config FileWalker) :
  runCommands env g
  = match find multiline (allRuns (Build env (gConfig g))) with
    | Some run => Err (multilineError (Go.TrimSpace (Command run)))
    | None => Ok (Go.Join (map runLine (allRuns (Build env (gConfig g)))) Go.LF)
    end.
Proof.
  unfold runCommands.
  rewrite (fold_left_snoc (fun command => {| Command := command; Mounts := [] |})).
  fold (allRuns (Build env (gConfig g))). rewrite runLines_eq.
  now destruct (find multiline _).
Qed.

(** When the run commands fail, so does the assembly of the initial steps,
    whatever the host does. *)
Lemma generateInitialSteps_run_error (g : Generator Config FileWalker)
  (w : World) (e : error) :
  runCommands env g = Err e ->
  isErr (snd (generateInitialSteps env (g, w))) = true.
Proof.
  intros Hrun. unfold generateInitialSteps.
  unfold bind at 1.
  pose proof (BaseImage_keeps env g w) as Hk.
  destruct (BaseImage env (g, w)) as [[g' w'] [baseImage|e0]]; [|reflexivity].
  cbn [fst] in Hk. subst g'. run_monad.
  assert (Hpy : exists py, installPython env g = Ok py).
  { unfold installPython, installPythonCUDA.
    destruct (_ && _ && _); eexists; reflexivity. }
  destruct Hpy as [py ->].
  destruct (aptInstalls env g); [|reflexivity].
  rewrite Hrun. reflexivity.
Qed.

Lemma generateForWeights_keeps (g : Generator Config FileWalker) (w : World) :
  fst (fst (generateForWeights env (g, w))) = g.
Proof.
  unfold generateForWeights. run_monad.
  destruct (weights_FindWeights env (fileWalker g) w) as [w1 [[dirs files]|e]];
    reflexivity.
Qed.

(** C6: every run command is trimmed before use.  When some command still
    contains a line break after trimming, [runCommands] fails with the
    multiline-command error, whose message ends with the trimmed text of the
    first such command, and every generation of that configuration returns
    an error instead of a plan.  When none does, each command becomes one
    instruction built from its trimmed text. *)
Theorem runCommands_multiline (g : Generator Config FileWalker) :
  let runs := allRuns (Build env (gConfig g)) in
  (forall run, In run runs -> multiline run = true ->
     exists first,
       find multiline runs = Some first
       /\ In first runs
       /\ Go.Contains (Go.TrimSpace (Command first)) Go.LF = true
       /\ runCommands env g
          = Err (multilineError (Go.TrimSpace (Command first)))
       /\ (exists pre,
             multilineError (Go.TrimSpace (Command first))
             = pre ++ Go.TrimSpace (Command first))
       /\ forall (w : World) (imageName : string),
            isErr (snd (generateInitialSteps env (g, w))) = true
            /\ isErr (snd (GenerateModelBase env (g, w))) = true
            /\ isErr (snd (GenerateDockerfileWithoutSeparateWeights env (g, w)))
               = true
            /\ isErr (snd (GenerateModelBaseWithSeparateWeights env imageName
                             (g, w))) = true)
  /\ ((forall run, In run runs -> multiline run = false) ->
      runCommands env g = Ok (Go.Join (map runLine runs) Go.LF)).
Proof.
  intros runs. split.
  - intros run Hin Hml.
    destruct (find multiline runs) as [first|] eqn:Hfind.
    2:{ pose proof (find_none _ _ Hfind _ Hin) as Hno. congruence. }
    exists first. apply find_some in Hfind as Hf. destruct Hf as [Hfin Hfml].
    assert (Hrun : runCommands env g
                   = Err (multilineError (Go.TrimSpace (Command first)))).
    { rewrite runCommands_eq. fold runs. now rewrite Hfind. }
    split; [reflexivity|]. split; [assumption|]. split; [exact Hfml|].
    split; [exact Hrun|]. split.
    { unfold multilineError. eexists. rewrite <- !append_assoc. reflexivity. }
    intros w imageName.
    pose proof (generateInitialSteps_run_error g w Hrun) as Hgen.
    split; [exact Hgen|].
    assert (Hbase : isErr (snd (GenerateModelBase env (g, w))) = true).
    { unfold GenerateModelBase, bind.
      destruct (generateInitialSteps env (g, w)) as [s [x|e]];
        [discriminate Hgen | reflexivity]. }
    split; [exact Hbase|]. split.
    + unfold GenerateDockerfileWithoutSeparateWeights, bind.
      destruct (GenerateModelBase env (g, w)) as [s [x|e]];
        [discriminate Hbase | reflexivity].
    + unfold GenerateModelBaseWithSeparateWeights.
      pose proof (generateForWeights_keeps g w) as Hk.
      destruct (generateForWeights env (g, w))
        as [[g1 w1] [[[weightsBase dirs] files]|e]]; [|reflexivity].
      cbn [fst] in Hk. subst g1. run_monad.
      assert (Hrun' : runCommands env (setModel dirs files g)
                      = Err (multilineError (Go.TrimSpace (Command first))))
        by exact Hrun.
      pose proof (generateInitialSteps_run_error (setModel dirs files g) w1 Hrun')
        as Hgen'.
      destruct (generateInitialSteps env (setModel dirs files g, w1))
        as [s [x|e]]; [discriminate Hgen' | reflexivity].
  - intros Hall. rewrite runCommands_eq. fold runs.
    destruct (find multiline runs) as [first|] eqn:Hfind; [|reflexivity].
    apply find_some in Hfind as [Hfin Hfml]. rewrite (Hall _ Hfin) in Hfml.
    discriminate.
Qed.

End RunCommands.

Lemma runCommands_multiline_witness :
  let bad := {| Command := " make" ++ Go.LF ++ "make install "; Mounts := [] |} in
  let g :=
    Sample.generatorOf (Sample.cfgOf (Sample.buildOf false [] [bad])) ([], []) in
  runCommands Sample.env g
  = Err (multilineError ("make" ++ Go.LF ++ "make install"))
  /\ isErr (snd (GenerateDockerfileWithoutSeparateWeights Sample.env
                   (g, Sample.host))) = true
  /\ isErr (snd (GenerateModelBaseWithSeparateWeights Sample.env "img"
                   (g, Sample.host))) = true.
Proof.
  intros bad g.
  destruct (proj1 (runCommands_multiline Sample.env g) bad
              (or_introl eq_refl) eq_refl)
    as (first & Hfind & _ & _ & Hrun & _ & Hgen).
  injection Hfind as <-.
  split; [exact Hrun|].
  destruct (Hgen Sample.host "img") as (_ & _ & H1 & H2).
  split; assumption.
Defined.

(** ** Platform identifiers *)

Section Platform.

Variables (Config World FileWalker : Type).
Variable env : Collaborators Config World FileWalker.

Lemma writeTemp_keeps (filename contents : string)
  (g : Generator Config FileWalker) (w : World) :
  fst (fst (writeTemp env filename contents (g, w))) = g.
Proof.
  unfold writeTemp. run_monad.
  destruct (os_MkdirAll env _ 493 w) as [w1 [e|]]; [reflexivity|].
  cbn [fst snd].
  destruct (os_WriteFile env _ contents 420 w1) as [w2 [e|]]; reflexivity.
Qed.



End Platform.


(** ** Paths without line breaks *)

Lemma hasByte_Join c (ls : list string) (sep : string) :
  hasByte c sep = false ->
  Forall (fun l => hasByte c l = false) ls ->
  hasByte c (Go.Join ls sep) = false.
Proof.
  intros Hsep. unfold Go.Join. induction 1 as [|l ls Hl Hls IH]; [reflexivity|].
  cbn [String.concat]. destruct ls as [|l' ls]; [assumption|].
  rewrite !hasByte_append, Hl, Hsep, IH. reflexivity.
Qed.

Lemma cleanElems_Forall (P : string -> Prop) (rooted : bool)
  (elems stack : list string) :
  Forall P stack -> Forall P elems -> Forall P (Go.cleanElems rooted stack elems).
Proof.
  revert stack. induction elems as [|e es IH]; intros stack Hs He.
  - cbn. now apply Forall_rev.
  - inversion He as [|? ? Pe Pes]; subst. cbn [Go.cleanElems].
    destruct ((e =? "") || (e =? ".")); [now apply IH|].
    destruct (e =? "..").
    + destruct stack as [|top rest].
      * destruct rooted; apply IH; auto.
      * inversion Hs; subst. destruct (top =? ".."); apply IH; auto.
    + apply IH; auto.
Qed.

Lemma Clean_oneLine (p : string) : oneLine p -> oneLine (Go.Clean p).
Proof.
  unfold oneLine, Go.Clean. intros Hp.
  assert (Hout : hasByte Go.LFc
                   (Go.Join (Go.cleanElems (Go.HasPrefix p "/") []
                               (Go.Split p "/"%char)) "/") = false).
  { apply hasByte_Join; [reflexivity|].
    apply cleanElems_Forall; [constructor|].
    apply Forall_forall. intros l Hl.
    destruct (hasByte Go.LFc l) eqn:E; [|reflexivity].
    now rewrite (Split_fields_bytes _ _ _ _ Hl E) in Hp. }
  destruct (Go.HasPrefix p "/").
  - now rewrite hasByte_append, Hout.
  - destruct (_ =? ""); [reflexivity | assumption].
Qed.

Lemma PathJoin_src_oneLine (p : string) :
  oneLine p -> oneLine (Go.PathJoin ["/src"; p]).
Proof.
  intros Hp. unfold Go.PathJoin. cbn [filter String.eqb negb Ascii.eqb].
  destruct (p =? ""); cbn [negb].
  - reflexivity.
  - apply Clean_oneLine. unfold oneLine.
    apply hasByte_Join; [reflexivity|]. repeat constructor. exact Hp.
Qed.

Lemma weightCopy_oneLine (p : string) : oneLine p -> oneLine (weightCopy p).
Proof.
  intros Hp. unfold oneLine, weightCopy.
  rewrite !hasByte_append, (PathJoin_src_oneLine Hp). reflexivity.
Qed.

Lemma weightCopy_shape (p : string) :
  weightCopy p <> "" /\ weightCopy p <> COPY_ALL.
Proof. unfold weightCopy. split; discriminate. Qed.

Lemma weightCopies_lines (paths : list string) :
  Forall oneLine paths ->
  filterEmpty (flat_map lines (map weightCopy paths)) = map weightCopy paths.
Proof.
  intros H. rewrite flat_map_oneLine.
  - apply filterEmpty_id. rewrite in_map_iff. intros (p & Hp & _).
    exact (proj1 (weightCopy_shape p) Hp).
  - apply Forall_forall. intros l Hl. apply in_map_iff in Hl as (p & <- & Hp).
    apply weightCopy_oneLine. rewrite Forall_forall in H. now apply H.
Qed.

(** ** What a generation leaves in the generator *)

Section Preservation.

Variables (Config World FileWalker : Type).
Variable env : Collaborators Config World FileWalker.
Variable P : Generator Config FileWalker -> Prop.

Lemma preserves_bind {A B} (m : M Config World FileWalker A)
  (k : A -> M Config World FileWalker B) :
  preserves P m -> (forall a, preserves P (k a)) -> preserves P (bind m k).
Proof.
  intros Hm Hk s Hs. unfold bind. specialize (Hm s Hs).
  destruct (m s) as [s1 [a|e]]; cbn [fst] in *; [now apply Hk | assumption].
Qed.

Lemma preserves_pure {A} (m : M Config World FileWalker A) :
  (forall s, fst (fst (m s)) = fst s) -> preserves P m.
Proof. intros H s Hs. now rewrite H. Qed.

Lemma preserves_modifyG (f : Generator Config FileWalker -> Generator Config FileWalker) :
  (forall g, P g -> P (f g)) -> preserves P (modifyG (World:=World) f).
Proof. intros H s Hs. now apply H. Qed.

End Preservation.

Ltac preserve_step :=
  match goal with
  | |- preserves _ (bind _ _) => apply preserves_bind; [|intros ?]
  | |- preserves _ (match ?x with _ => _ end) => destruct x
  | |- preserves _ (ret _) => apply preserves_pure; reflexivity
  | |- preserves _ (fail _) => apply preserves_pure; reflexivity
  | |- preserves _ (@getG _ _ _) => apply preserves_pure; reflexivity
  | |- preserves _ (liftR _) => apply preserves_pure; reflexivity
  | |- preserves _ (log _ _) => apply preserves_pure; reflexivity
  | |- preserves _ (readW _) => apply preserves_pure; reflexivity
  | |- preserves _ (liftW ?f) =>
      apply preserves_pure; intros [? ?]; unfold liftW; cbn [fst snd];
      destruct (f _); reflexivity
  end.

Section Assembly.

Variables (Config World FileWalker : Type).
Variable env : Collaborators Config World FileWalker.

(** A property of the generator that does not read the cached
    requirements text. *)
Variable P : Generator Config FileWalker -> Prop.
Hypothesis P_requirements : forall c g, P g -> P (setRequirements c g).

Lemma writeTemp_preserves (filename contents : string) :
  preserves P (writeTemp env filename contents).
Proof. unfold writeTemp. repeat preserve_step. Qed.

Lemma installCog_preserves : preserves P (installCog env).
Proof.
  unfold installCog. apply preserves_bind; [apply writeTemp_preserves|].
  intros [ls cp]. preserve_step.
Qed.

Lemma index0_preserves (copyLine : list string) :
  preserves P (index0 (Config:=Config) (World:=World) (FileWalker:=FileWalker) copyLine).
Proof. unfold index0. repeat preserve_step. Qed.

Lemma pipInstalls_preserves : preserves P (pipInstalls env).
Proof.
  unfold pipInstalls. apply preserves_bind; [preserve_step|]. intros g.
  destruct (PythonRequirementsForArch env _ _ _ _) as [contents err].
  apply preserves_bind; [apply preserves_modifyG; auto|]. intros _.
  destruct err; [preserve_step|].
  destruct (Go.Trim contents "" =? ""); [preserve_step|].
  apply preserves_bind; [preserve_step|]. intros _.
  apply preserves_bind; [apply writeTemp_preserves|]. intros [ls cp].
  apply preserves_bind; [apply index0_preserves|]. intros l0. preserve_step.
Qed.

Lemma pipInstallStage_preserves : preserves P (pipInstallStage env).
Proof.
  unfold pipInstallStage. apply preserves_bind; [apply installCog_preserves|].
  intros ic. apply preserves_bind; [preserve_step|]. intros g.
  destruct (PythonRequirementsForArch env _ _ _ _) as [contents err].
  apply preserves_bind; [apply preserves_modifyG; auto|]. intros _.
  destruct err; [preserve_step|].
  destruct (Go.Trim contents "" =? ""); [preserve_step|].
  apply preserves_bind; [preserve_step|]. intros _.
  apply preserves_bind; [apply writeTemp_preserves|]. intros [ls cp].
  apply preserves_bind; [preserve_step|]. intros deps.
  apply preserves_bind; [apply index0_preserves|]. intros l0. preserve_step.
Qed.

End Assembly.

(** ** The assembled plan *)

Section Plan.

Variables (Config World FileWalker : Type).
Variable env : Collaborators Config World FileWalker.

Lemma BaseImage_preserves (P : Generator Config FileWalker -> Prop) :
  preserves P (BaseImage env).
Proof.
  apply preserves_pure. intros [g w]. apply BaseImage_keeps.
Qed.

Lemma generateInitialSteps_preserves (P : Generator Config FileWalker -> Prop) :
  (forall c g, P g -> P (setRequirements c g)) ->
  preserves P (generateInitialSteps env).
Proof.
  intros HP. unfold generateInitialSteps.
  apply preserves_bind; [apply BaseImage_preserves|]. intros baseImage.
  repeat (apply preserves_bind; [preserve_step|]; intros ?).
  destruct (useCogBaseImage _).
  - apply preserves_bind; [now apply pipInstalls_preserves|].
    intros ?. preserve_step.
  - apply preserves_bind; [now apply pipInstallStage_preserves|].
    intros ?. preserve_step.
Qed.

(** The fragments behind a successful assembly of the initial steps. *)
Lemma generateInitialSteps_inv (g : Generator Config FileWalker) (w : World)
  (s' : Generator Config FileWalker * World) (steps : string) :
  generateInitialSteps env (g, w) = (s', Ok steps) ->
  exists w1 baseImage installPy apt run deps,
    BaseImage env (g, w) = ((g, w1), Ok baseImage)
    /\ installPython env g = Ok installPy
    /\ aptInstalls env g = Ok apt
    /\ runCommands env g = Ok run
    /\ if useCogBaseImage g then
         pipInstalls env (g, w1) = (s', Ok deps)
         /\ steps = joinStringsWithoutLineSpace
                      ["#syntax=docker/dockerfile:1.4"; "FROM " ++ baseImage;
                       apt; deps; run]
       else
         pipInstallStage env (g, w1) = (s', Ok deps)
         /\ steps = joinStringsWithoutLineSpace
                      ["#syntax=docker/dockerfile:1.4"; deps;
                       "FROM " ++ baseImage; preamble; installTini; installPy;
                       apt; copyPipPackagesFromInstallStage env g; run].
Proof.
  unfold generateInitialSteps. unfold bind at 1.
  pose proof (BaseImage_keeps env g w) as Hk.
  destruct (BaseImage env (g, w)) as [[g1 w1] [baseImage|e]];
    [|discriminate]. cbn [fst] in Hk. subst g1. run_monad.
  destruct (installPython env g) as [installPy|e]; [|discriminate].
  destruct (aptInstalls env g) as [apt|e]; [|discriminate].
  destruct (runCommands env g) as [run|e]; [|discriminate].
  intros H. exists w1, baseImage, installPy, apt, run.
  destruct (useCogBaseImage g).
  - destruct (pipInstalls env (g, w1)) as [s2 [deps|e]]; [|discriminate].
    injection H as <- <-. exists deps. repeat split; reflexivity.
  - destruct (pipInstallStage env (g, w1)) as [s2 [deps|e]]; [|discriminate].
    injection H as <- <-. exists deps. repeat split; reflexivity.
Qed.

(** What a successful generation with separate weights is made of. *)
Lemma GenerateModelBaseWithSeparateWeights_inv (imageName : string)
  (g : Generator Config FileWalker) (w : World)
  (s' : Generator Config FileWalker * World) (weightsBase plan ignore : string) :
  GenerateModelBaseWithSeparateWeights env imageName (g, w)
  = (s', Ok (weightsBase, plan, ignore)) ->
  exists w1 dirs files initialSteps,
    weights_FindWeights env (fileWalker g) w = (w1, Ok (dirs, files))
    /\ generateInitialSteps env (setModel dirs files g, w1)
       = (s', Ok initialSteps)
    /\ plan = joinStringsWithoutLineSpace
                (injectWeights imageName [] (lines initialSteps)
                 ++ map weightCopy (dirs ++ files)
                 ++ [WORKDIR; EXPOSE; CMD; COPY_ALL])%list
    /\ ignore = makeDockerignoreForWeights dirs files.
Proof.
  unfold GenerateModelBaseWithSeparateWeights, generateForWeights. run_monad.
  destruct (weights_FindWeights env (fileWalker g) w)
    as [w1 [[dirs files]|e]]; [|discriminate].
  cbn [fst snd].
  pose proof (@generateInitialSteps_preserves
                (fun g' => modelDirs g' = dirs /\ modelFiles g' = files)
                (fun c g' H => H) (setModel dirs files g, w1)
                (conj eq_refl eq_refl)) as [Hd Hf].
  destruct (generateInitialSteps env (setModel dirs files g, w1))
    as [s2 [initialSteps|e]] eqn:Hgen; [|discriminate].
  cbn [fst] in Hd, Hf. rewrite Hd, Hf. intros H. injection H as <- _ <- <-.
  exists w1, dirs, files, initialSteps.
  rewrite (fold_left_snoc weightCopy), <- app_assoc.
  split; [reflexivity|]. split; [exact Hgen|]. split; reflexivity.
Qed.

(** The lines of a plan with separate weights: the initial steps with the
    weights stage spliced in, then the weight copies, then the four closing
    lines. *)
Lemma separate_weights_lines (imageName : string) (steps : list string)
  (paths : list string) :
  lines (joinStringsWithoutLineSpace
           (injectWeights imageName [] steps ++ map weightCopy paths
            ++ [WORKDIR; EXPOSE; CMD; COPY_ALL])%list)
  = (filterEmpty (flat_map lines (injectWeights imageName [] steps))
     ++ filterEmpty (flat_map lines (map weightCopy paths))
     ++ [WORKDIR; EXPOSE; CMD; COPY_ALL])%list.
Proof.
  rewrite lines_joinStrings; rewrite !flat_map_app, !filterEmpty_app.
  - reflexivity.
  - intros H. apply app_eq_nil in H as [_ H]. apply app_eq_nil in H as [_ H].
    discriminate H.
Qed.





End Plan.

Section SeparateWeights.

Variables (Config World FileWalker : Type).
Variable env : Collaborators Config World FileWalker.



End SeparateWeights.





(** ** The system-package block *)

Lemma joinStrings_drop_empty (a b : list string) :
  joinStringsWithoutLineSpace (a ++ "" :: b)
  = joinStringsWithoutLineSpace (a ++ b).
Proof.
  rewrite !joinStringsWithoutLineSpace_eq, !flat_map_app. cbn [flat_map].
  now rewrite !filterEmpty_app.
Qed.

Lemma lines_joinStrings_pragma (rest : list string) :
  lines (joinStringsWithoutLineSpace ("#syntax=docker/dockerfile:1.4" :: rest))
  = filterEmpty (flat_map lines ("#syntax=docker/dockerfile:1.4" :: rest)).
Proof.
  apply lines_joinStrings. cbn [flat_map]. rewrite filterEmpty_app.
  discriminate.
Qed.

Section SystemPackages.

Variables (Config World FileWalker : Type).
Variable env : Collaborators Config World FileWalker.

(** The initial steps have no empty line. *)
Lemma generateInitialSteps_lines (g : Generator Config FileWalker) (w : World)
  (s' : Generator Config FileWalker * World) (steps : string) :
  generateInitialSteps env (g, w) = (s', Ok steps) ->
  filterEmpty (lines steps) = lines steps.
Proof.
  intros H. apply generateInitialSteps_inv in H
    as (w1 & baseImage & installPy & apt & run & deps & _ & _ & _ & _ & H).
  destruct (useCogBaseImage g); destruct H as [_ ->];
    rewrite lines_joinStrings_pragma; apply filterEmpty_idem.
Qed.

(** C5, as the code has it: with an empty system-package list the
    system-package block is the empty text and adds no line.  The initial
    steps are assembled from the other blocks alone, and every line of a
    plan is a non-empty line of one of them (or one of the closing lines).
    Lines that install packages with apt-get can still come from those
    blocks: the init-process install, the runtime install of a GPU build, or
    a run command. *)
Theorem no_system_package_block (g : Generator Config FileWalker) (w : World) :
  SystemPackages (Build env (gConfig g)) = [] ->
  aptInstalls env g = Ok ""
  /\ (forall s' steps,
        generateInitialSteps env (g, w) = (s', Ok steps) ->
        exists w1 baseImage installPy run deps,
          BaseImage env (g, w) = ((g, w1), Ok baseImage)
          /\ installPython env g = Ok installPy
          /\ runCommands env g = Ok run
          /\ snd ((if useCogBaseImage g then pipInstalls env
                   else pipInstallStage env) (g, w1)) = Ok deps
          /\ let blocks :=
               if useCogBaseImage g then
                 ["#syntax=docker/dockerfile:1.4"; "FROM " ++ baseImage;
                  deps; run]
               else
                 ["#syntax=docker/dockerfile:1.4"; deps; "FROM " ++ baseImage;
                  preamble; installTini; installPy;
                  copyPipPackagesFromInstallStage env g; run] in
             steps = joinStringsWithoutLineSpace blocks
             /\ lines steps = filterEmpty (flat_map lines blocks))
  /\ (forall s' plan,
        GenerateDockerfileWithoutSeparateWeights env (g, w) = (s', Ok plan) ->
        exists steps,
          snd (generateInitialSteps env (g, w)) = Ok steps
          /\ lines plan = (lines steps ++ [WORKDIR; EXPOSE; CMD; COPY_ALL])%list
          /\ ~ In "" (lines plan)).
Proof.
  intros Hempty.
  assert (Hapt : aptInstalls env g = Ok "").
  { unfold aptInstalls. now rewrite Hempty. }
  split; [exact Hapt|]. split.
  - intros s' steps H. apply generateInitialSteps_inv in H
      as (w1 & baseImage & installPy & apt & run & deps
          & Hbase & Hpy & Hapt' & Hrun & H).
    rewrite Hapt in Hapt'. injection Hapt' as <-.
    exists w1, baseImage, installPy, run, deps.
    split; [exact Hbase|]. split; [exact Hpy|]. split; [exact Hrun|].
    destruct (useCogBaseImage g); destruct H as [Hdeps ->];
      (split; [now rewrite Hdeps|]); cbv zeta.
    + pose proof (joinStrings_drop_empty
                    ["#syntax=docker/dockerfile:1.4"; "FROM " ++ baseImage]
                    [deps; run]) as E.
      cbn [app] in E. rewrite E.
      split; [reflexivity | apply lines_joinStrings_pragma].
    + pose proof (joinStrings_drop_empty
                    ["#syntax=docker/dockerfile:1.4"; deps; "FROM " ++ baseImage;
                     preamble; installTini; installPy]
                    [copyPipPackagesFromInstallStage env g; run]) as E.
      cbn [app] in E. rewrite E.
      split; [reflexivity | apply lines_joinStrings_pragma].
  - intros s' plan. unfold GenerateDockerfileWithoutSeparateWeights,
      GenerateModelBase. run_monad.
    destruct (generateInitialSteps env (g, w)) as [s1 [steps|e]] eqn:Hgen;
      [|discriminate].
    intros H. injection H as _ <-. exists steps. split; [reflexivity|].
    assert (Hl : lines (joinStringsWithoutLineSpace
                          [Go.Join [steps; WORKDIR; EXPOSE; CMD] Go.LF; COPY_ALL])
                 = (lines steps ++ [WORKDIR; EXPOSE; CMD; COPY_ALL])%list).
    { rewrite lines_joinStrings; cbn [flat_map];
        rewrite lines_Join by discriminate; cbn [flat_map];
        rewrite !filterEmpty_app, (generateInitialSteps_lines _ _ Hgen).
      - rewrite <- !app_assoc. reflexivity.
      - intros H. apply app_eq_nil in H as [_ H]. discriminate H. }
    assert (Hn : ~ In "" (lines steps ++ [WORKDIR; EXPOSE; CMD; COPY_ALL])%list).
    { rewrite in_app_iff.
      rewrite <- (generateInitialSteps_lines _ _ Hgen), filterEmpty_In.
      intros [[_ H]|H]; [now apply H|].
      cbn in H. intuition discriminate. }
    split; [exact Hl|]. intros Hin. apply Hn. rewrite <- Hl. exact Hin.
Qed.

End SystemPackages.

Lemma no_system_package_block_witness :
  aptInstalls Sample.env Sample.gpuModel = Ok ""
  /\ exists s' plan steps,
       GenerateDockerfileWithoutSeparateWeights Sample.env
         (Sample.gpuModel, Sample.host) = (s', Ok plan)
       /\ lines plan = (lines steps ++ [WORKDIR; EXPOSE; CMD; COPY_ALL])%list.
Proof.
  destruct (no_system_package_block Sample.env Sample.gpuModel Sample.host
              eq_refl) as (Hapt & _ & Hplan).
  split; [exact Hapt|].
  eassert (H : GenerateDockerfileWithoutSeparateWeights Sample.env
                 (Sample.gpuModel, Sample.host) = (_, Ok _))
    by (vm_compute; reflexivity).
  destruct (Hplan _ _ H) as (steps & _ & Hlines & _).
  eexists _, _, steps. split; [exact H | exact Hlines].
Defined.

(** C5 as the specification words it fails: a GPU build without system packages
    still has a line that starts the way the system-package instruction
    does, the apt-get install of the runtime-install block. *)
Lemma apt_install_line_without_system_packages :
  SystemPackages (Build Sample.env (gConfig Sample.gpuModel)) = []
  /\ exists s' plan,
       GenerateDockerfileWithoutSeparateWeights Sample.env
         (Sample.gpuModel, Sample.host) = (s', Ok plan)
       /\ noAptInstallLine plan = false
       /\ In ("RUN --mount=type=cache,target=/var/cache/apt,sharing=locked apt-get update -qq && apt-get install -qqy --no-install-recommends " ++ Go.BS)
             (lines plan).
Proof.
  split; [reflexivity|].
  eexists _, _. split; [vm_compute; reflexivity|].
  split; [vm_compute; reflexivity|].
  vm_compute. do 19 right. left. reflexivity.
Qed.

(** * Further properties of the generator *)

(** ** Normalization as an operation on lists of chunks *)

Lemma filterEmpty_lines_joinStrings (chunks : list string) :
  filterEmpty (lines (joinStringsWithoutLineSpace chunks))
  = filterEmpty (flat_map lines chunks).
Proof.
  destruct (filterEmpty (flat_map lines chunks)) as [|l ls] eqn:E.
  - rewrite joinStringsWithoutLineSpace_eq, E. reflexivity.
  - rewrite lines_joinStrings by (rewrite E; discriminate).
    rewrite filterEmpty_idem. exact E.
Qed.

(** X1: normalization composes: normalizing two lists of chunks one after
    the other is normalizing the two normalized texts, and an empty chunk
    anywhere in the list changes nothing. *)
Theorem joinStrings_compose :
  (forall a b : list string,
      joinStringsWithoutLineSpace (a ++ b)
      = joinStringsWithoutLineSpace
          [joinStringsWithoutLineSpace a; joinStringsWithoutLineSpace b])
  /\ (forall a b : list string,
         joinStringsWithoutLineSpace (a ++ "" :: b)
         = joinStringsWithoutLineSpace (a ++ b)).
Proof.
  split; [|exact joinStrings_drop_empty].
  intros a b. rewrite (joinStringsWithoutLineSpace_eq [_; _]).
  cbn [flat_map]. rewrite app_nil_r, filterEmpty_app.
  rewrite !filterEmpty_lines_joinStrings, <- filterEmpty_app, <- flat_map_app.
  apply joinStringsWithoutLineSpace_eq.
Qed.

(** X2: a normalized text holds, in order, exactly the non-empty lines of
    its chunks; unless it is the empty text it has no empty line, so it
    neither starts nor ends with a line break. *)
Theorem joinStrings_lines (chunks : list string) :
  filterEmpty (lines (joinStringsWithoutLineSpace chunks))
  = filterEmpty (flat_map lines chunks)
  /\ (joinStringsWithoutLineSpace chunks <> "" ->
      lines (joinStringsWithoutLineSpace chunks)
      = filterEmpty (flat_map lines chunks)
      /\ ~ In "" (lines (joinStringsWithoutLineSpace chunks)))
  /\ (joinStringsWithoutLineSpace chunks = ""
      <-> filterEmpty (flat_map lines chunks) = []).
Proof.
  split; [apply filterEmpty_lines_joinStrings|].
  assert (Hiff : joinStringsWithoutLineSpace chunks = ""
                 <-> filterEmpty (flat_map lines chunks) = []).
  { rewrite joinStringsWithoutLineSpace_eq. split.
    - destruct (filterEmpty (flat_map lines chunks)) as [|l ls] eqn:E;
        [reflexivity|].
      intros H. exfalso.
      assert (Hl : In l (filterEmpty (flat_map lines chunks)))
        by (rewrite E; now left).
      apply filterEmpty_In in Hl as [_ Hl]. apply Hl.
      unfold Go.Join in H. cbn [String.concat] in H.
      destruct ls; [exact H|]. destruct l; [reflexivity | discriminate H].
    - intros ->. reflexivity. }
  split; [|exact Hiff].
  intros Hne.
  assert (Hn : filterEmpty (flat_map lines chunks) <> [])
    by (intros E; apply Hne, Hiff, E).
  rewrite (lines_joinStrings _ Hn). split; [reflexivity|].
  rewrite filterEmpty_In. tauto.
Qed.

Lemma joinStrings_lines_witness :
  lines (joinStringsWithoutLineSpace ["a" ++ Go.LF ++ Go.LF ++ "b"; ""; "c"])
  = ["a"; "b"; "c"].
Proof.
  apply (proj1 (proj2 (joinStrings_lines ["a" ++ Go.LF ++ Go.LF ++ "b"; ""; "c"]))).
  vm_compute. discriminate.
Defined.

(** ** The shape of a plan *)

Lemma lines_FROM (x : string) :
  lines ("FROM " ++ x) = ("FROM " ++ hd "" (lines x)) :: tl (lines x).
Proof.
  unfold lines. cbn [append].
  rewrite !Split_cons_other by reflexivity.
  destruct (Go.Split x Go.LFc) as [|h t] eqn:E;
    [now apply Split_not_nil in E | reflexivity].
Qed.

Lemma isFrom_FROM (x : string) : isFrom ("FROM " ++ x) = true.
Proof. destruct x; reflexivity. Qed.

Lemma Join_snoc (l : list string) (x sep : string) :
  l <> [] -> Go.Join (l ++ [x]) sep = Go.Join l sep ++ sep ++ x.
Proof.
  unfold Go.Join. induction l as [|a l IH]; [congruence|]. intros _.
  destruct l as [|b l].
  - reflexivity.
  - change (String.concat sep ((a :: b :: l) ++ [x]))
      with (a ++ sep ++ String.concat sep ((b :: l) ++ [x])).
    rewrite IH by discriminate.
    change (String.concat sep (a :: b :: l))
      with (a ++ sep ++ String.concat sep (b :: l)).
    now rewrite !append_assoc.
Qed.

(** Where the weights stage goes: in front of the first line that opens a
    stage. *)
Lemma injectWeights_acc (imageName : string) (steps acc : list string) :
  injectWeights imageName acc steps
  = (acc ++ injectWeights imageName [] steps)%list.
Proof.
  revert acc. induction steps as [|l ls IH]; intros acc; cbn [injectWeights].
  - now rewrite app_nil_r.
  - destruct (Go.HasPrefix l "FROM ").
    + now rewrite <- !app_assoc.
    + rewrite (IH (acc ++ [l])%list), (IH ([] ++ [l])%list), <- app_assoc.
      reflexivity.
Qed.

(** The weights directive goes in front of the first FROM line. *)
Lemma injectWeights_at_first_from (imageName : string) :
  (forall steps : list string,
      forallb (fun l => negb (isFrom l)) steps = true ->
      injectWeights imageName [] steps = steps)
  /\ (forall (before after : list string) (line : string),
         forallb (fun l => negb (isFrom l)) before = true ->
         isFrom line = true ->
         injectWeights imageName [] (before ++ line :: after)
         = (before ++ weightsDirective imageName :: line :: after)%list).
Proof.
  split.
  - induction steps as [|l ls IH]; [reflexivity|].
    cbn [forallb injectWeights]. unfold isFrom at 1. intros H.
    apply andb_true_iff in H as [Hl Hls]. apply negb_true_iff in Hl.
    rewrite Hl, injectWeights_acc, (IH Hls). reflexivity.
  - induction before as [|l ls IH]; intros after line Hb Hl.
    + cbn [app injectWeights]. unfold isFrom in Hl. now rewrite Hl.
    + cbn [forallb] in Hb. apply andb_true_iff in Hb as [Hl' Hls].
      apply negb_true_iff in Hl'. unfold isFrom in Hl'.
      cbn [app injectWeights]. rewrite Hl', injectWeights_acc, (IH _ _ Hls Hl).
      reflexivity.
Qed.

(** X3: the loop over the initial steps puts the weights directive exactly
    once, immediately before the first line that starts with FROM, and
    keeps every line in place; when no line starts with FROM it adds
    nothing. *)
Theorem injectWeights_first_stage (imageName : string) :
  (forall steps : list string,
      forallb (fun l => negb (isFrom l)) steps = true ->
      injectWeights imageName [] steps = steps)
  /\ (forall (before after : list string) (line : string),
         forallb (fun l => negb (isFrom l)) before = true ->
         isFrom line = true ->
         injectWeights imageName [] (before ++ line :: after)
         = (before ++ weightsDirective imageName :: line :: after)%list).
Proof. apply injectWeights_at_first_from. Qed.

Lemma injectWeights_first_stage_witness :
  injectWeights "img" [] ["#syntax=docker/dockerfile:1.4"; "FROM a as deps"; "FROM b"]
  = ["#syntax=docker/dockerfile:1.4"; "FROM img-weights AS weights";
     "FROM a as deps"; "FROM b"].
Proof.
  exact (proj2 (injectWeights_first_stage "img")
           ["#syntax=docker/dockerfile:1.4"] ["FROM b"] "FROM a as deps"
           eq_refl eq_refl).
Defined.

Section PlanShape.

Variables (Config World FileWalker : Type).
Variable env : Collaborators Config World FileWalker.

Lemma pipInstallStage_FROM (s s' : Generator Config FileWalker * World)
  (deps : string) :
  pipInstallStage env s = (s', Ok deps) -> exists x, deps = "FROM " ++ x.
Proof.
  unfold pipInstallStage. run_monad.
  destruct (installCog env s) as [[g1 w1] [ic|e]]; [|discriminate].
  cbn [fst snd].
  destruct (PythonRequirementsForArch env _ _ _ _) as [contents [err|]];
    [discriminate|].
  cbn [fst snd].
  destruct (Go.Trim contents "" =? "").
  - intros H. injection H as _ <-. eexists. reflexivity.
  - cbn [fst snd].
    destruct (writeTemp env "requirements.txt" contents _)
      as [[g2 w2] [[copyLine cp]|e]]; [|discriminate].
    cbn [fst snd]. unfold index0.
    destruct copyLine as [|l0 rest]; [discriminate|]. run_monad.
    intros H. injection H as _ <-.
    destruct (negb (os_Getenv env _ w2 =? "")); eexists; reflexivity.
Qed.

(** The initial steps open with the syntax pragma and a stage. *)
Lemma initialSteps_head (g : Generator Config FileWalker) (w : World)
  (s' : Generator Config FileWalker * World) (steps : string) :
  generateInitialSteps env (g, w) = (s', Ok steps) ->
  exists from rest,
    lines steps = pragma :: from :: rest /\ isFrom from = true.
Proof.
  intros H. apply generateInitialSteps_inv in H
    as (w1 & baseImage & installPy & apt & run & deps & _ & _ & _ & _ & H).
  destruct (useCogBaseImage g); destruct H as [Hdeps ->];
    rewrite lines_joinStrings_pragma.
  - cbn [flat_map]. rewrite lines_FROM. cbn [app filterEmpty].
    eexists _, _. split; [reflexivity | apply isFrom_FROM].
  - apply pipInstallStage_FROM in Hdeps as [x ->].
    cbn [flat_map]. rewrite lines_FROM. cbn [app filterEmpty].
    eexists _, _. split; [reflexivity | apply isFrom_FROM].
Qed.

(** The model base: the initial steps and three more lines. *)
Lemma modelBase_lines (g : Generator Config FileWalker) (w : World)
  (s' : Generator Config FileWalker * World) (steps : string) :
  generateInitialSteps env (g, w) = (s', Ok steps) ->
  lines (Go.Join [steps; WORKDIR; EXPOSE; CMD] Go.LF)
  = (lines steps ++ [WORKDIR; EXPOSE; CMD])%list
  /\ ~ In "" (lines steps ++ [WORKDIR; EXPOSE; CMD])%list.
Proof.
  intros Hgen. split.
  - rewrite lines_Join by discriminate. cbn [flat_map]. reflexivity.
  - rewrite in_app_iff.
    rewrite <- (generateInitialSteps_lines _ _ _ Hgen), filterEmpty_In.
    intros [[_ H]|H]; [now apply H|]. cbn in H. intuition discriminate.
Qed.

(** X4: a plan without separate weights is the model base followed by one
    more line, the copy of the build context; the model base is the initial
    steps followed by the working-directory, port and entrypoint lines.
    The plan opens with the syntax pragma and a FROM line and has no empty
    line. *)
Theorem plan_without_separate_weights (g : Generator Config FileWalker)
  (w : World) (s' : Generator Config FileWalker * World) (plan : string) :
  GenerateDockerfileWithoutSeparateWeights env (g, w) = (s', Ok plan) ->
  exists steps base from rest,
    generateInitialSteps env (g, w) = (s', Ok steps)
    /\ GenerateModelBase env (g, w) = (s', Ok base)
    /\ base = steps ++ Go.LF ++ WORKDIR ++ Go.LF ++ EXPOSE ++ Go.LF ++ CMD
    /\ plan = base ++ Go.LF ++ COPY_ALL
    /\ lines plan
       = (pragma :: from :: rest ++ [WORKDIR; EXPOSE; CMD; COPY_ALL])%list
    /\ isFrom from = true
    /\ ~ In "" (lines plan).
Proof.
  unfold GenerateDockerfileWithoutSeparateWeights, GenerateModelBase.
  run_monad.
  destruct (generateInitialSteps env (g, w)) as [s1 [steps|e]] eqn:Hgen;
    [|discriminate].
  intros H.
  assert (Hs : s1 = s') by congruence.
  assert (Hp : plan = joinStringsWithoutLineSpace
                        [Go.Join [steps; WORKDIR; EXPOSE; CMD] Go.LF; COPY_ALL])
    by congruence.
  clear H. subst s1.
  destruct (modelBase_lines _ _ Hgen) as [Hbl Hbn].
  destruct (initialSteps_head _ _ Hgen) as (from & rest & Hhead & Hfrom).
  assert (Hplan : plan = Go.Join [steps; WORKDIR; EXPOSE; CMD] Go.LF
                         ++ Go.LF ++ COPY_ALL).
  { rewrite Hp, joinStringsWithoutLineSpace_eq. cbn [flat_map].
    rewrite app_nil_r, Hbl.
    change (lines COPY_ALL) with [COPY_ALL].
    rewrite filterEmpty_id.
    2:{ rewrite in_app_iff. intros [Hin|[Hin|[]]];
          [exact (Hbn Hin) | discriminate Hin]. }
    rewrite Join_snoc by (rewrite Hhead; discriminate).
    rewrite <- Hbl, Join_Split. reflexivity. }
  assert (Hlines : lines plan
                   = (lines steps ++ [WORKDIR; EXPOSE; CMD; COPY_ALL])%list).
  { rewrite Hplan. unfold lines at 1.
    change (Go.LF ++ COPY_ALL) with (String Go.LFc COPY_ALL).
    rewrite Split_append. fold (lines (Go.Join [steps; WORKDIR; EXPOSE; CMD] Go.LF)).
    rewrite Hbl, <- app_assoc. reflexivity. }
  exists steps, (Go.Join [steps; WORKDIR; EXPOSE; CMD] Go.LF), from, rest.
  split; [reflexivity|]. split; [reflexivity|]. split; [reflexivity|].
  split; [exact Hplan|]. split; [now rewrite Hlines, Hhead|].
  split; [exact Hfrom|].
  rewrite Hlines.
  change [WORKDIR; EXPOSE; CMD; COPY_ALL]
    with ([WORKDIR; EXPOSE; CMD] ++ [COPY_ALL])%list.
  rewrite app_assoc, in_app_iff. intros [Hin|[Hin|[]]];
    [exact (Hbn Hin) | discriminate Hin].
Qed.


End PlanShape.

Lemma plan_without_separate_weights_witness :
  exists s' plan rest,
    GenerateDockerfileWithoutSeparateWeights Sample.env
      (Sample.withWeights, Sample.host) = (s', Ok plan)
    /\ lines plan
       = (pragma :: "FROM python:3.10 as deps" :: rest
          ++ [WORKDIR; EXPOSE; CMD; COPY_ALL])%list.
Proof.
  eassert (H : GenerateDockerfileWithoutSeparateWeights Sample.env
                 (Sample.withWeights, Sample.host) = (_, Ok _))
    by (vm_compute; reflexivity).
  destruct (plan_without_separate_weights _ _ _ H)
    as (steps & base & from & rest & _ & _ & _ & _ & Hlines & _).
  assert (Hfrom : from = "FROM python:3.10 as deps").
  { vm_compute in Hlines. now injection Hlines. }
  subst from. eexists _, _, rest. split; [exact H | exact Hlines].
Defined.


(** ** Weights discovery and what a generation leaves behind *)

Lemma weightsStageCopy_oneLine (p : string) :
  oneLine p -> oneLine (weightsStageCopy p).
Proof.
  intros Hp. unfold oneLine, weightsStageCopy in *.
  now rewrite !hasByte_append, Hp, (PathJoin_src_oneLine Hp).
Qed.

Lemma lines_weightsStage (paths : list string) (text : string) :
  Forall oneLine paths ->
  lines (text ++ catAll (map (fun p => Go.LF ++ weightsStageCopy p) paths))
  = (lines text ++ map weightsStageCopy paths)%list.
Proof.
  intros H. revert text. induction H as [|p ps Hp _ IH]; intros text.
  - cbn. now rewrite append_empty_r, app_nil_r.
  - cbn [map catAll fold_right].
    change (fold_right append "" (map (fun p0 => Go.LF ++ weightsStageCopy p0) ps))
      with (catAll (map (fun p0 => Go.LF ++ weightsStageCopy p0) ps)).
    rewrite <- append_assoc, IH. cbn [map].
    change (Go.LF ++ weightsStageCopy p) with (String Go.LFc (weightsStageCopy p)).
    unfold lines at 1. rewrite Split_append.
    rewrite (Split_oneLine _ _ (weightsStageCopy_oneLine Hp)), <- app_assoc.
    reflexivity.
Qed.

Section Weights.

Variables (Config World FileWalker : Type).
Variable env : Collaborators Config World FileWalker.

(** X6: the weights stage is the syntax pragma, FROM scratch, and after a
    separating line break one COPY per discovered path, directories first,
    each placed under /src; the discovered lists are returned as found.  A
    discovery error is returned unchanged.  The text is not normalized: for
    paths without line breaks its third line is empty. *)
Theorem generateForWeights_text (g : Generator Config FileWalker) (w : World) :
  (forall w1 e,
      weights_FindWeights env (fileWalker g) w = (w1, Err e) ->
      generateForWeights env (g, w) = ((g, w1), Err e))
  /\ (forall w1 dirs files,
         weights_FindWeights env (fileWalker g) w = (w1, Ok (dirs, files)) ->
         exists text,
           generateForWeights env (g, w) = ((g, w1), Ok (text, dirs, files))
           /\ text = pragma ++ Go.LF ++ "FROM scratch" ++ Go.LF
                     ++ catAll (map (fun p => Go.LF ++ weightsStageCopy p)
                                    (dirs ++ files))
           /\ (Forall oneLine (dirs ++ files) ->
               lines text
               = (pragma :: "FROM scratch" :: ""
                  :: map weightsStageCopy (dirs ++ files))%list)).
Proof.
  unfold generateForWeights. run_monad. split.
  - intros w1 e ->. reflexivity.
  - intros w1 dirs files ->. cbn [fst snd].
    eexists. split; [reflexivity|].
    assert (Htext :
      fold_left
        (fun contents p =>
           contents ++ Go.LF ++ "COPY " ++ p ++ " " ++ Go.PathJoin ["/src"; p])
        (dirs ++ files)%list
        ("#syntax=docker/dockerfile:1.4" ++ Go.LF ++ "FROM scratch" ++ Go.LF)
      = pragma ++ Go.LF ++ "FROM scratch" ++ Go.LF
        ++ catAll (map (fun p => Go.LF ++ weightsStageCopy p) (dirs ++ files))).
    { rewrite (fold_left_append (fun p => Go.LF ++ weightsStageCopy p)).
      unfold pragma. now rewrite !append_assoc. }
    split; [exact Htext|].
    intros Hone. rewrite Htext.
    pose proof (lines_weightsStage
                  (pragma ++ Go.LF ++ "FROM scratch" ++ Go.LF) Hone) as Hl.
    rewrite !append_assoc in Hl. rewrite Hl. reflexivity.
Qed.

(** X7: when discovery fails, a generation with separate weights wraps the
    error, forgets the weights a previous generation had recorded, and does
    nothing else: no initial step is assembled and the host is as discovery
    left it. *)
Theorem separate_weights_discovery_failure (imageName : string)
  (g : Generator Config FileWalker) (w w1 : World) (e : error) :
  weights_FindWeights env (fileWalker g) w = (w1, Err e) ->
  GenerateModelBaseWithSeparateWeights env imageName (g, w)
  = ((setModel [] [] g, w1),
     Err ("Failed to generate Dockerfile for model weights files: " ++ e)).
Proof.
  intros H. unfold GenerateModelBaseWithSeparateWeights, generateForWeights.
  run_monad. rewrite H. reflexivity.
Qed.

(** What a successful generation with separate weights returns and
    records. *)
Lemma separate_weights_inv_full (imageName : string)
  (g : Generator Config FileWalker) (w : World)
  (s' : Generator Config FileWalker * World) (weightsBase plan ignore : string) :
  GenerateModelBaseWithSeparateWeights env imageName (g, w)
  = (s', Ok (weightsBase, plan, ignore)) ->
  exists w1 dirs files,
    weights_FindWeights env (fileWalker g) w = (w1, Ok (dirs, files))
    /\ generateForWeights env (g, w) = ((g, w1), Ok (weightsBase, dirs, files))
    /\ ignore = makeDockerignoreForWeights dirs files
    /\ modelDirs (fst s') = dirs
    /\ modelFiles (fst s') = files
    /\ sameButWeightsAndRequirements g (fst s').
Proof.
  unfold GenerateModelBaseWithSeparateWeights.
  pose proof (generateForWeights_keeps env g w) as Hk.
  destruct (generateForWeights env (g, w))
    as [[g1 w1] [[[wb dirs] files]|e]] eqn:Hw; [|discriminate].
  cbn [fst] in Hk. subst g1. run_monad.
  pose proof (@generateInitialSteps_preserves _ _ _ env
                (fun g' => modelDirs g' = dirs /\ modelFiles g' = files
                           /\ sameButWeightsAndRequirements g g')
                (fun c g' H => H) (setModel dirs files g, w1)
                (conj eq_refl (conj eq_refl eq_refl))) as (Hd & Hf & Hsame).
  destruct (generateInitialSteps env (setModel dirs files g, w1))
    as [s2 [steps|e]]; [|discriminate].
  cbn [fst] in Hd, Hf, Hsame. rewrite Hd, Hf. intros H.
  assert (Hs : s2 = s') by congruence.
  assert (Hwb : wb = weightsBase) by congruence.
  assert (Hig : makeDockerignoreForWeights dirs files = ignore) by congruence.
  subst s2 wb. exists w1, dirs, files.
  assert (Hfind : weights_FindWeights env (fileWalker g) w
                  = (w1, Ok (dirs, files))).
  { revert Hw. unfold generateForWeights. run_monad.
    destruct (weights_FindWeights env (fileWalker g) w)
      as [w2 [[d f]|e]]; [|discriminate].
    cbn [fst snd]. intros H'. congruence. }
  repeat split; try assumption; try reflexivity. now symmetry.
Qed.

(** X8: a successful generation with separate weights returns the weights
    stage of the discovered paths and the ignore file of the same paths,
    and records those paths in the generator; nothing else of the generator
    changes but the cached requirements text. *)
Theorem separate_weights_outputs (imageName : string)
  (g : Generator Config FileWalker) (w : World)
  (s' : Generator Config FileWalker * World) (weightsBase plan ignore : string) :
  GenerateModelBaseWithSeparateWeights env imageName (g, w)
  = (s', Ok (weightsBase, plan, ignore)) ->
  exists w1 dirs files,
    weights_FindWeights env (fileWalker g) w = (w1, Ok (dirs, files))
    /\ generateForWeights env (g, w) = ((g, w1), Ok (weightsBase, dirs, files))
    /\ ignore = makeDockerignoreForWeights dirs files
    /\ modelDirs (fst s') = dirs
    /\ modelFiles (fst s') = files
    /\ sameButWeightsAndRequirements g (fst s').
Proof. apply separate_weights_inv_full. Qed.

End Weights.

Lemma generateForWeights_text_witness :
  exists text,
    generateForWeights Sample.env (Sample.withWeights, Sample.host)
    = ((Sample.withWeights, Sample.host), Ok (text, ["weights"], ["a.bin"]))
    /\ lines text
       = [pragma; "FROM scratch"; ""; "COPY weights /src/weights";
          "COPY a.bin /src/a.bin"].
Proof.
  destruct (proj2 (generateForWeights_text Sample.env Sample.withWeights
                     Sample.host) Sample.host ["weights"] ["a.bin"] eq_refl)
    as (text & Hgen & _ & Hlines).
  exists text. split; [exact Hgen|].
  apply Hlines. repeat constructor.
Defined.

Lemma separate_weights_outputs_witness :
  exists s' weightsBase plan ignore,
    GenerateModelBaseWithSeparateWeights Sample.env "img"
      (Sample.withWeights, Sample.host)
    = (s', Ok (weightsBase, plan, ignore))
    /\ ignore = makeDockerignoreForWeights ["weights"] ["a.bin"]
    /\ modelDirs (fst s') = ["weights"] /\ modelFiles (fst s') = ["a.bin"].
Proof.
  eassert (H : GenerateModelBaseWithSeparateWeights Sample.env "img"
                 (Sample.withWeights, Sample.host) = (_, Ok (_, _, _)))
    by (vm_compute; reflexivity).
  destruct (separate_weights_outputs _ _ _ _ H)
    as (w1 & dirs & files & Hfind & _ & Hig & Hd & Hf & _).
  injection Hfind as _ <- <-.
  eexists _, _, _, _. split; [exact H|].
  split; [exact Hig|]. split; [exact Hd | exact Hf].
Defined.

Lemma separate_weights_discovery_failure_witness :
  GenerateModelBaseWithSeparateWeights
    (withFindWeights Sample.env (fun _ w => (w, Err "walk failed"))) "img"
    (Sample.withWeights, Sample.host)
  = ((Sample.withWeights, Sample.host),
     Err "Failed to generate Dockerfile for model weights files: walk failed").
Proof.
  exact (separate_weights_discovery_failure
           (withFindWeights Sample.env (fun _ w => (w, Err "walk failed")))
           "img" Sample.withWeights Sample.host eq_refl).
Defined.

Section Frame.

Variables (Config World FileWalker : Type).
Variable env : Collaborators Config World FileWalker.

Lemma GenerateModelBase_preserves (P : Generator Config FileWalker -> Prop) :
  (forall c g, P g -> P (setRequirements c g)) ->
  preserves P (GenerateModelBase env).
Proof.
  intros HP. unfold GenerateModelBase.
  apply preserves_bind; [now apply generateInitialSteps_preserves|].
  intros ?. preserve_step.
Qed.

(** X9: whatever its outcome, a generation changes nothing in the
    generator but the cached requirements text, and with separate weights
    the recorded weight paths: configuration, directories, platform and
    both flags stay as they were. *)
Theorem generation_frame (imageName : string)
  (g : Generator Config FileWalker) (w : World) :
  sameButRequirements g (fst (fst (generateInitialSteps env (g, w))))
  /\ sameButRequirements g (fst (fst (GenerateModelBase env (g, w))))
  /\ sameButRequirements g
       (fst (fst (GenerateDockerfileWithoutSeparateWeights env (g, w))))
  /\ sameButWeightsAndRequirements g
       (fst (fst (GenerateModelBaseWithSeparateWeights env imageName (g, w)))).
Proof.
  assert (HP : forall c (g' : Generator Config FileWalker),
             sameButRequirements g g' ->
             sameButRequirements g (setRequirements c g'))
    by (intros c g' H; exact H).
  split; [|split; [|split]].
  - exact (generateInitialSteps_preserves env _ HP (g, w) eq_refl).
  - exact (GenerateModelBase_preserves _ HP (g, w) eq_refl).
  - unfold GenerateDockerfileWithoutSeparateWeights.
    refine (preserves_bind _ _ _ (g, w) eq_refl).
    + now apply GenerateModelBase_preserves.
    + intros ?. preserve_step.
  - unfold GenerateModelBaseWithSeparateWeights.
    pose proof (generateForWeights_keeps env g w) as Hk.
    destruct (generateForWeights env (g, w))
      as [[g1 w1] [[[wb dirs] files]|e]]; cbn [fst] in Hk; subst g1;
      [|reflexivity].
    run_monad.
    pose proof (@generateInitialSteps_preserves _ _ _ env
                  (fun g' => sameButWeightsAndRequirements g g')
                  (fun c g' H => H) (setModel dirs files g, w1) eq_refl) as Hs.
    destruct (generateInitialSteps env (setModel dirs files g, w1))
      as [s2 [steps|e]]; exact Hs.
Qed.

(** X10: a run command that spans lines is rejected before anything is
    staged: the generation stops with the state the base-image resolution
    left (no file written, no requirements computed or cached), and returns
    the multiline error unless the base image already failed. *)
Theorem multiline_rejected_before_staging (g : Generator Config FileWalker)
  (w : World) (e : error) :
  runCommands env g = Err e ->
  generateInitialSteps env (g, w)
  = (fst (BaseImage env (g, w)),
     match snd (BaseImage env (g, w)) with
     | Ok _ => Err e
     | Err e0 => Err e0
     end).
Proof.
  intros Hrun. unfold generateInitialSteps. unfold bind at 1.
  pose proof (BaseImage_keeps env g w) as Hk.
  destruct (BaseImage env (g, w)) as [[g' w'] [baseImage|e0]]; [|reflexivity].
  cbn [fst] in Hk. subst g'. run_monad.
  assert (Hpy : exists py, installPython env g = Ok py).
  { unfold installPython, installPythonCUDA.
    destruct (_ && _ && _); eexists; reflexivity. }
  destruct Hpy as [py ->].
  assert (Hapt : exists apt, aptInstalls env g = Ok apt).
  { unfold aptInstalls. destruct (Nat.eqb _ 0); eexists; reflexivity. }
  destruct Hapt as [apt ->].
  rewrite Hrun. reflexivity.
Qed.

End Frame.

Lemma multiline_rejected_before_staging_witness :
  let bad := {| Command := "make" ++ Go.LF ++ "make install"; Mounts := [] |} in
  let g :=
    Sample.generatorOf (Sample.cfgOf (Sample.buildOf false [] [bad])) ([], []) in
  generateInitialSteps Sample.env (g, Sample.host)
  = ((g, Sample.host), Err (multilineError ("make" ++ Go.LF ++ "make install"))).
Proof.
  intros bad g.
  exact (multiline_rejected_before_staging Sample.env g Sample.host eq_refl).
Defined.

(** ** Run commands that pass the check *)

Lemma secretMounts_eq (ms : list Mount) :
  secretMounts ms = map secretToken (filter isSecret ms).
Proof.
  unfold secretMounts.
  assert (H : forall acc,
             fold_left
               (fun mounts mount =>
                  if MountType mount =? "secret" then
                    List.app mounts
                      ["--mount=type=secret,id=" ++ ID mount ++ ",target="
                       ++ Target mount]
                  else mounts) ms acc
             = (acc ++ map secretToken (filter isSecret ms))%list).
  { induction ms as [|m ms IH]; intros acc; cbn [fold_left filter].
    - now rewrite app_nil_r.
    - unfold isSecret at 1. destruct (MountType m =? "secret").
      + rewrite IH, <- app_assoc. reflexivity.
      + apply IH. }
  apply (H []).
Qed.

Lemma runLine_oneLine (run : RunItem) :
  multiline run = false ->
  (forall m, In m (Mounts run) -> oneLine (ID m) /\ oneLine (Target m)) ->
  oneLine (runLine run).
Proof.
  unfold multiline. rewrite Contains_LF. intros Hc Hm.
  unfold runLine, oneLine.
  destruct (Nat.ltb 0 (List.length (Mounts run))).
  - rewrite !hasByte_append, Hc, secretMounts_eq.
    rewrite hasByte_Join; [reflexivity | reflexivity |].
    apply Forall_forall. intros t Ht. apply in_map_iff in Ht as (m & <- & Hin).
    apply filter_In in Hin as [Hin _]. destruct (Hm m Hin) as [Hi Ht].
    unfold secretToken, oneLine in *. now rewrite !hasByte_append, Hi, Ht.
  - now rewrite hasByte_append, Hc.
Qed.

Section RunInstructions.

Variables (Config World FileWalker : Type).
Variable env : Collaborators Config World FileWalker.

(** X11: when no command spans lines, the run block holds one instruction
    per command, in order: the run commands first, then the legacy
    pre-install commands as plain commands.  Each instruction starts with
    RUN and, when mount ids and targets have no line break, is one line of
    the block; without commands the block is empty. *)
Theorem runCommands_instructions (g : Generator Config FileWalker) :
  let b := Build env (gConfig g) in
  let instructions :=
    List.app (map runLine (Run b))
      (map (fun command => "RUN " ++ Go.TrimSpace command) (PreInstall b)) in
  (forall run, In run (allRuns b) -> multiline run = false) ->
  runCommands env g = Ok (Go.Join instructions Go.LF)
  /\ Forall (fun l => Go.HasPrefix l "RUN " = true) instructions
  /\ ((forall run m, In run (Run b) -> In m (Mounts run) ->
         oneLine (ID m) /\ oneLine (Target m)) ->
      instructions <> [] ->
      lines (Go.Join instructions Go.LF) = instructions).
Proof.
  intros b instructions Hall.
  assert (Hi : instructions = map runLine (allRuns b)).
  { unfold instructions, allRuns. rewrite map_app, map_map. reflexivity. }
  split; [|split].
  - rewrite runCommands_eq. fold b.
    destruct (find multiline (allRuns b)) as [first|] eqn:Hfind.
    + apply find_some in Hfind as [Hin Hml]. rewrite (Hall _ Hin) in Hml.
      discriminate.
    + now rewrite Hi.
  - rewrite Hi. apply Forall_forall. intros l Hl.
    apply in_map_iff in Hl as (run & <- & _). unfold runLine.
    destruct (Nat.ltb 0 _); cbn [append]; unfold Go.HasPrefix;
      cbn [String.prefix];
      repeat (destruct (ascii_dec _ _); [|congruence]);
      match goal with |- String.prefix "" ?s = true => now destruct s end.
  - intros Hm Hne. apply lines_Join_oneLine; [assumption|].
    rewrite Hi. apply Forall_forall. intros l Hl.
    apply in_map_iff in Hl as (run & <- & Hin).
    apply runLine_oneLine; [now apply Hall|].
    intros m Hmin. unfold allRuns in Hin. apply in_app_iff in Hin as [Hin|Hin].
    + now apply (Hm run).
    + apply in_map_iff in Hin as (c & <- & _). destruct Hmin.
Qed.

(** X12: only mounts of type secret produce a token, in their order.  A
    command whose mounts are all of another type still takes the mount form
    of the instruction, with an empty list of tokens: RUN, two spaces, the
    command. *)
Theorem only_secret_mounts_emitted :
  (forall ms : list Mount,
      secretMounts ms = map secretToken (filter isSecret ms))
  /\ (forall (run : RunItem) (acc : list string),
         multiline run = false ->
         Mounts run <> [] ->
         forallb (fun m => negb (isSecret m)) (Mounts run) = true ->
         runLines acc [run]
         = Ok (List.app acc ["RUN  " ++ Go.TrimSpace (Command run)])).
Proof.
  split; [exact secretMounts_eq|].
  intros run acc Hml Hne Hnone. rewrite runLines_eq. cbn [find map].
  rewrite Hml. unfold runLine.
  destruct (Mounts run) as [|m ms] eqn:Em; [congruence|].
  cbn [List.length Nat.ltb Nat.leb]. rewrite secretMounts_eq.
  assert (Hf : filter isSecret (m :: ms) = []).
  { clear - Hnone. induction (m :: ms) as [|x l IH]; [reflexivity|].
    cbn [forallb filter] in *. apply andb_true_iff in Hnone as [Hx Hl].
    apply negb_true_iff in Hx. rewrite Hx. now apply IH. }
  rewrite Hf. reflexivity.
Qed.

End RunInstructions.

Lemma runCommands_instructions_witness :
  let secret := {| MountType := "secret"; ID := "pip"; Target := "/etc/pip.conf" |} in
  let b :=
    {| GPU := false; CUDA := ""; PythonVersion := "3.10"; SystemPackages := [];
       Run := [{| Command := " pip install x "; Mounts := [secret] |}];
       PreInstall := ["make "] |} in
  runCommands Sample.env (Sample.generatorOf (Sample.cfgOf b) ([], []))
  = Ok ("RUN --mount=type=secret,id=pip,target=/etc/pip.conf pip install x"
        ++ Go.LF ++ "RUN make").
Proof.
  intros secret b.
  refine (proj1 (runCommands_instructions Sample.env
                   (Sample.generatorOf (Sample.cfgOf b) ([], [])) _)).
  intros run [<-|[<-|[]]]; reflexivity.
Defined.

Lemma only_secret_mounts_emitted_witness :
  runLines []
    [{| Command := "make";
        Mounts := [{| MountType := "cache"; ID := "c"; Target := "/c" |}] |}]
  = Ok ["RUN  make"].
Proof.
  refine (proj2 only_secret_mounts_emitted
            {| Command := "make";
               Mounts := [{| MountType := "cache"; ID := "c"; Target := "/c" |}] |}
            [] eq_refl _ eq_refl).
  discriminate.
Defined.

(** ** Strategies, versions and warnings *)

Section Strategies.

Variables (Config World FileWalker : Type).
Variable env : Collaborators Config World FileWalker.

(** X13: in the traditional strategy the base image, the runtime install
    and the target of the dependency copy go together.  With the
    accelerator base image switched off by the argument false, even a GPU
    configuration gets python:VERSION-slim, no runtime install, and its
    dependencies copied to the site-packages of the system Python; a GPU
    configuration with the accelerator base image gets the accelerator tag,
    the pyenv runtime install, and the copy into the pyenv prefix. *)
Theorem accelerator_base_switch (g : Generator Config FileWalker) (w : World) :
  useCogBaseImage g = false ->
  let b := Build env (gConfig g) in
  let off := SetUseCudaBaseImage g "false" in
  (BaseImage env (off, w)
   = ((off, w), Ok ("python:" ++ PythonVersion b ++ "-slim"))
   /\ installPython env off = Ok ""
   /\ copyPipPackagesFromInstallStage env off
      = "COPY --from=deps --link /dep /usr/local/lib/python" ++ PythonVersion b
        ++ "/site-packages")
  /\ (GPU b = true -> useCudaBaseImage g = true ->
      BaseImage env (g, w) = ((g, w), CUDABaseImageTag env (gConfig g))
      /\ installPython env g = installPythonCUDA env g
      /\ installPython env g <> Ok ""
      /\ Go.Contains (copyPipPackagesFromInstallStage env g) "$(pyenv prefix)"
         = true).
Proof.
  intros Hcog b off. split.
  - unfold BaseImage, installPython, copyPipPackagesFromInstallStage.
    run_monad. subst off. cbn [SetUseCudaBaseImage gConfig useCogBaseImage
                                 useCudaBaseImage String.eqb Ascii.eqb negb].
    rewrite Hcog. fold b. rewrite !andb_false_r. cbn [andb orb].
    repeat split; reflexivity.
  - intros Hgpu Hcuda.
    unfold BaseImage, installPython, copyPipPackagesFromInstallStage.
    run_monad. fold b. rewrite Hcog, Hgpu, Hcuda. cbn [andb orb negb].
    split; [reflexivity|]. split; [reflexivity|]. split.
    + unfold installPythonCUDA. discriminate.
    + vm_compute. reflexivity.
Qed.

(** X14: stripping is idempotent for a parser that reads the stripped text
    back as the same major and minor: the normalized version is returned
    again, unchanged. *)
Theorem stripPatchVersion_idempotent (v normalized : string) (changed : bool) :
  v <> "" ->
  stripPatchVersion env v = Ok (normalized, changed) ->
  (forall ver, version_NewVersion env v = Ok ver ->
     exists ver', version_NewVersion env normalized = Ok ver'
                  /\ Major ver' = Major ver /\ Minor ver' = Minor ver) ->
  stripPatchVersion env normalized = Ok (normalized, false).
Proof.
  intros Hne. unfold stripPatchVersion at 1.
  apply String.eqb_neq in Hne. rewrite Hne.
  destruct (version_NewVersion env v) as [ver|e] eqn:Hp; [|discriminate].
  intros H Hback.
  assert (Hn : Go.itoa (Major ver) ++ "." ++ Go.itoa (Minor ver) = normalized)
    by congruence.
  clear H.
  destruct (Hback ver eq_refl) as (ver' & Hp' & HM & Hm).
  unfold stripPatchVersion. rewrite Hp', HM, Hm, Hn.
  assert (Hnn : (normalized =? "") = false).
  { rewrite <- Hn. destruct (Go.itoa (Major ver)); reflexivity. }
  rewrite Hnn, String.eqb_refl. reflexivity.
Qed.

(** X15: with the engine base image, resolving the base image warns once
    for every version whose patch part was stripped, the runtime version
    first, and does nothing else to the host.  Both warnings quote the
    runtime version before and after stripping: the one for the tensor
    library does not name the tensor library's version. *)
Theorem BaseImage_warnings (g : Generator Config FileWalker) (w : World)
  (pythonV torchV : string) (changedPython changedTorch : bool) :
  useCogBaseImage g = true ->
  let b := Build env (gConfig g) in
  stripPatchVersion env (PythonVersion b) = Ok (pythonV, changedPython) ->
  stripPatchVersion env (fst (TorchVersion env (gConfig g)))
  = Ok (torchV, changedTorch) ->
  let warnPython :=
    Warnf ("Stripping patch version from Python version " ++ PythonVersion b
           ++ " to " ++ pythonV) in
  let warnTorch :=
    Warnf ("Stripping patch version from Torch version " ++ PythonVersion b
           ++ " to " ++ pythonV) in
  let w1 := if changedPython then console env warnPython w else w in
  let w2 := if changedTorch then console env warnTorch w1 else w1 in
  fst (BaseImage env (g, w)) = (g, w2).
Proof.
  intros Hcog b Hpy Htorch warnPython warnTorch w1 w2.
  unfold BaseImage. run_monad. rewrite Hcog. fold b. rewrite Hpy.
  destruct changedPython; cbn [fst snd]; rewrite Htorch;
    destruct changedTorch; cbn [fst snd];
    destruct (NewBaseImageGenerator env _ _ _); reflexivity.
Qed.

End Strategies.

Lemma accelerator_base_switch_witness :
  snd (BaseImage Sample.env
         (SetUseCudaBaseImage Sample.gpuModel "false", Sample.host))
  = Ok "python:3.10-slim"
  /\ snd (BaseImage Sample.env (Sample.gpuModel, Sample.host))
     = Ok "nvidia/cuda:11.8.0-cudnn8-devel-ubuntu22.04".
Proof.
  destruct (accelerator_base_switch Sample.env Sample.gpuModel Sample.host
              eq_refl) as [(H1 & _) H2].
  destruct (H2 eq_refl eq_refl) as (H3 & _).
  split; [now rewrite H1 | now rewrite H3].
Defined.

Lemma stripPatchVersion_idempotent_witness :
  stripPatchVersion Sample.env "3.10" = Ok ("3.10", false).
Proof.
  apply (stripPatchVersion_idempotent Sample.env (v := "3.10.5") (changed := true)).
  - discriminate.
  - reflexivity.
  - intros ver H. injection H as <-. eexists. split; [reflexivity|].
    split; reflexivity.
Defined.

Lemma BaseImage_warnings_witness :
  let g :=
    SetUseCogBaseImage
      (Sample.generatorOf
         {| Sample.build :=
              {| GPU := true; CUDA := "11.8"; PythonVersion := "3.10.5";
                 SystemPackages := []; Run := []; PreInstall := [] |};
            Sample.torch := ("2.0.1", true);
            Sample.torchvision := ("", false);
            Sample.requirements := "";
            Sample.cudaTag := "" |} ([], [])) true in
  Sample.logged (snd (fst (BaseImage Sample.env (g, Sample.host))))
  = [Warnf "Stripping patch version from Torch version 3.10.5 to 3.10";
     Warnf "Stripping patch version from Python version 3.10.5 to 3.10"].
Proof.
  intros g.
  rewrite (BaseImage_warnings Sample.env g Sample.host (pythonV := "3.10")
             (torchV := "2.0") (changedPython := true) (changedTorch := true)
             eq_refl eq_refl eq_refl).
  reflexivity.
Defined.

(** ** Dependency installs *)

Section Dependencies.

Variables (Config World FileWalker : Type).
Variable env : Collaborators Config World FileWalker.

(** A staged file: one copy instruction and the path under /tmp. *)
Lemma writeTemp_ok (filename contents : string)
  (s s' : Generator Config FileWalker * World) (ls : list string) (cp : string) :
  writeTemp env filename contents s = (s', Ok (ls, cp)) ->
  ls = ["COPY " ++ filepath_Join env [relativeTmpDir (fst s); filename]
        ++ " /tmp/" ++ filename]
  /\ cp = "/tmp/" ++ filename
  /\ fst s' = fst s.
Proof.
  unfold writeTemp. run_monad.
  destruct (os_MkdirAll env _ 493 (snd s)) as [w1 [e|]]; [discriminate|].
  cbn [fst snd].
  destruct (os_WriteFile env _ contents 420 w1) as [w2 [e|]]; [discriminate|].
  intros H. injection H as <- <- <-. repeat split; reflexivity.
Qed.

(** X16: the combined dependency install asks for the requirements of the
    generator's platform without the pinned tensor and vision libraries and
    caches the answer in the generator, whatever happens next.  An error of
    that computation is returned unchanged and an empty answer gives the
    empty block, both without touching the host.  Any other answer, blank
    text included, is logged, staged as requirements.txt and installed with
    pip; a failure to stage it is the result. *)
Theorem pipInstalls_requirements (g : Generator Config FileWalker) (w : World)
  (contents : string) (err : option error) :
  PythonRequirementsForArch env (gConfig g) (GOOS g) (GOARCH g)
    (exclusions env g) = (contents, err) ->
  pythonRequirementsContents (fst (fst (pipInstalls env (g, w)))) = contents
  /\ (forall e, err = Some e ->
        pipInstalls env (g, w) = ((setRequirements contents g, w), Err e))
  /\ (err = None -> contents = "" ->
      pipInstalls env (g, w) = ((setRequirements "" g, w), Ok ""))
  /\ (err = None -> contents <> "" ->
      let staged :=
        writeTemp env "requirements.txt" contents
          (setRequirements contents g,
           console env
             (Debugf ("Generated requirements.txt:" ++ Go.LF ++ contents)) w) in
      pipInstalls env (g, w)
      = (fst staged,
         match snd staged with
         | Err e => Err e
         | Ok _ =>
             Ok ("COPY "
                 ++ filepath_Join env [relativeTmpDir g; "requirements.txt"]
                 ++ " /tmp/requirements.txt" ++ Go.LF
                 ++ "RUN pip install -r /tmp/requirements.txt")
         end)).
Proof.
  intros Hreq.
  assert (Hun : pipInstalls env (g, w)
                = match err with
                  | Some e => ((setRequirements contents g, w), Err e)
                  | None =>
                      if contents =? "" then
                        ((setRequirements contents g, w), Ok "")
                      else
                        bind (writeTemp env "requirements.txt" contents)
                          (fun x =>
                             let (copyLine, containerPath) := x in
                             bind (index0 copyLine)
                               (fun l0 =>
                                  ret (Go.Join
                                         [l0; "RUN pip install -r "
                                              ++ containerPath] Go.LF)))
                          (setRequirements contents g,
                           console env
                             (Debugf ("Generated requirements.txt:" ++ Go.LF
                                      ++ contents)) w)
                  end).
  { unfold pipInstalls, exclusions in *. run_monad.
    destruct (TorchVersion env (gConfig g)) as [tv [|]];
      destruct (TorchvisionVersion env (gConfig g)) as [tvv [|]];
      cbn [app] in Hreq |- *; rewrite Hreq; run_monad;
      (destruct err; [reflexivity|]);
      unfold Go.Trim; cbn [String.eqb];
      destruct (contents =? ""); reflexivity. }
  assert (Hstaged :
    forall s1,
      bind (writeTemp env "requirements.txt" contents)
        (fun x =>
           let (copyLine, containerPath) := x in
           bind (index0 copyLine)
             (fun l0 =>
                ret (Go.Join [l0; "RUN pip install -r " ++ containerPath] Go.LF)))
        s1
      = (fst (writeTemp env "requirements.txt" contents s1),
         match snd (writeTemp env "requirements.txt" contents s1) with
         | Err e => Err e
         | Ok _ =>
             Ok ("COPY "
                 ++ filepath_Join env [relativeTmpDir (fst s1); "requirements.txt"]
                 ++ " /tmp/requirements.txt" ++ Go.LF
                 ++ "RUN pip install -r /tmp/requirements.txt")
         end)).
  { intros s1. unfold bind at 1.
    destruct (writeTemp env "requirements.txt" contents s1)
      as [s2 [[ls cp]|e]] eqn:Hw; [|reflexivity].
    apply writeTemp_ok in Hw as (-> & -> & _). unfold index0. run_monad.
    cbn [Go.Join String.concat]. now rewrite !append_assoc. }
  rewrite Hun. split; [|split; [|split]].
  - destruct err; [reflexivity|]. destruct (contents =? ""); [reflexivity|].
    rewrite Hstaged. cbn [fst].
    pose proof (writeTemp_keeps env "requirements.txt" contents
                  (setRequirements contents g)
                  (console env
                     (Debugf ("Generated requirements.txt:" ++ Go.LF ++ contents))
                     w)) as Hk.
    now rewrite Hk.
  - intros e ->. reflexivity.
  - intros -> ->. reflexivity.
  - intros -> Hne staged. apply String.eqb_neq in Hne. rewrite Hne.
    apply Hstaged.
Qed.

(** X17: the dependency-install stage stages the embedded wheel before it
    asks for the requirements, and asks without exclusions.  If staging the
    wheel fails, that error is the result and no requirements are computed.
    With empty requirements the stage is its FROM line and the wheel
    install, and the experimental build-stage override is not consulted. *)
Theorem pipInstallStage_empty_requirements (g : Generator Config FileWalker)
  (w : World) :
  (forall s1 e,
      installCog env (g, w) = (s1, Err e) ->
      pipInstallStage env (g, w) = (s1, Err e))
  /\ (forall w1 wheel contents,
         installCog env (g, w) = ((g, w1), Ok wheel) ->
         PythonRequirementsForArch env (gConfig g) (GOOS g) (GOARCH g) []
         = (contents, None) ->
         contents = "" ->
         pipInstallStage env (g, w)
         = ((setRequirements "" g, w1),
            Ok ("FROM python:" ++ PythonVersion (Build env (gConfig g))
                ++ " as deps" ++ Go.LF ++ wheel)))
  /\ (forall w1 wheel contents e,
         installCog env (g, w) = ((g, w1), Ok wheel) ->
         PythonRequirementsForArch env (gConfig g) (GOOS g) (GOARCH g) []
         = (contents, Some e) ->
         pipInstallStage env (g, w) = ((setRequirements contents g, w1), Err e)).
Proof.
  unfold pipInstallStage. split; [|split].
  - intros s1 e H. unfold bind at 1. now rewrite H.
  - intros w1 wheel contents H Hreq ->. unfold bind at 1. rewrite H.
    run_monad. rewrite Hreq. run_monad. reflexivity.
  - intros w1 wheel contents e H Hreq. unfold bind at 1. rewrite H.
    run_monad. rewrite Hreq. reflexivity.
Qed.

(** X18: a new generator starts in the traditional strategy with the
    accelerator base image allowed and no weights recorded: its base image
    is the accelerator tag for a GPU configuration and python:VERSION-slim
    otherwise.  Its scratch directory was made under DIR/.cog/tmp with a
    name starting with build and a timestamp, and its relative scratch
    directory is that path relative to DIR. *)
Theorem NewGenerator_defaults (config : Config) (dir : string)
  (w w' : World) (g : Generator Config FileWalker) :
  NewGenerator env config dir w = (w', Ok g) ->
  gConfig g = config /\ Dir g = dir
  /\ useCudaBaseImage g = true /\ IsUsingCogBaseImage g = false
  /\ modelDirs g = [] /\ modelFiles g = []
  /\ filepath_Rel env dir (tmpDir g) = Ok (relativeTmpDir g)
  /\ (exists w1,
        os_MkdirAll env (Go.PathJoin [dir; ".cog/tmp"]) 493 w = (w1, None)
        /\ os_MkdirTemp env (Go.PathJoin [dir; ".cog/tmp"])
             ("build" ++ time_Now_Format env "20060102150405.000000" w1) w1
           = (w', Ok (tmpDir g)))
  /\ forall w0,
       BaseImage env (g, w0)
       = ((g, w0),
          if GPU (Build env config) then CUDABaseImageTag env config
          else Ok ("python:" ++ PythonVersion (Build env config) ++ "-slim")).
Proof.
  unfold NewGenerator. intros H.
  destruct (os_MkdirAll env _ 493 w) as [w1 [e|]] eqn:Hmk; [discriminate H|].
  destruct (os_MkdirTemp env _ _ w1) as [w2 [t|e]] eqn:Htmp; [|discriminate H].
  destruct (filepath_Rel env dir t) as [r|e] eqn:Hrel; [|discriminate H].
  injection H as <- <-.
  cbn [gConfig Dir useCudaBaseImage IsUsingCogBaseImage useCogBaseImage
         modelDirs modelFiles tmpDir relativeTmpDir].
  repeat (split; [reflexivity|]). split; [exact Hrel|]. split.
  - exists w1. split; [reflexivity | exact Htmp].
  - intros w0. unfold BaseImage. run_monad. cbn [useCogBaseImage gConfig
                                                   useCudaBaseImage].
    rewrite andb_true_r. destruct (GPU (Build env config)); reflexivity.
Qed.

End Dependencies.

Lemma pipInstalls_requirements_witness :
  let g :=
    Sample.generatorOf
      {| Sample.build := Sample.buildOf false [] [];
         Sample.torch := ("2.0.1", true);
         Sample.torchvision := ("", false);
         Sample.requirements := Go.LF;
         Sample.cudaTag := "" |} ([], []) in
  snd (pipInstalls Sample.env (g, Sample.host))
  = Ok ("COPY .cog/tmp/build20240620123456.0000001/requirements.txt /tmp/requirements.txt"
        ++ Go.LF ++ "RUN pip install -r /tmp/requirements.txt")
  /\ pythonRequirementsContents (fst (fst (pipInstalls Sample.env (g, Sample.host))))
     = Go.LF.
Proof.
  intros g.
  destruct (pipInstalls_requirements Sample.env g Sample.host eq_refl)
    as (Hcache & _ & _ & Hstage).
  split; [|exact Hcache].
  rewrite (Hstage eq_refl); [reflexivity | discriminate].
Defined.

Lemma pipInstallStage_empty_requirements_witness :
  snd (pipInstallStage
         (withWriteFile Sample.env (fun _ _ _ w => (w, Some "disk full")))
         (Sample.withWeights, Sample.host))
  = Err "Failed to write cog-0.0.1.dev-py3-none-any.whl: disk full"
  /\ snd (pipInstallStage Sample.env (Sample.withWeights, Sample.host))
     = Ok ("FROM python:3.10 as deps" ++ Go.LF
           ++ "COPY .cog/tmp/build20240620123456.0000001/cog-0.0.1.dev-py3-none-any.whl /tmp/cog-0.0.1.dev-py3-none-any.whl"
           ++ Go.LF
           ++ "RUN --mount=type=cache,target=/root/.cache/pip pip install -t /dep /tmp/cog-0.0.1.dev-py3-none-any.whl").
Proof.
  split.
  - eassert (H : installCog
                   (withWriteFile Sample.env (fun _ _ _ w => (w, Some "disk full")))
                   (Sample.withWeights, Sample.host) = (_, Err _))
      by (vm_compute; reflexivity).
    rewrite (proj1 (pipInstallStage_empty_requirements _ _ _) _ _ H).
    reflexivity.
  - eassert (H : installCog Sample.env (Sample.withWeights, Sample.host)
                 = ((Sample.withWeights, _), Ok _))
      by (vm_compute; reflexivity).
    rewrite (proj1 (proj2 (pipInstallStage_empty_requirements _ _ _))
               _ _ _ H eq_refl eq_refl).
    reflexivity.
Defined.

Lemma NewGenerator_defaults_witness :
  exists w' g,
    NewGenerator Sample.env (Sample.cfgOf (Sample.buildOf true [] [])) "/model"
      Sample.host = (w', Ok g)
    /\ tmpDir g = "/model/.cog/tmp/build20240620123456.0000001"
    /\ relativeTmpDir g = ".cog/tmp/build20240620123456.0000001"
    /\ snd (BaseImage Sample.env (g, Sample.host))
       = Ok "nvidia/cuda:11.8.0-cudnn8-devel-ubuntu22.04".
Proof.
  eassert (H : NewGenerator Sample.env (Sample.cfgOf (Sample.buildOf true [] []))
                 "/model" Sample.host = (_, Ok _)) by reflexivity.
  destruct (NewGenerator_defaults _ _ _ _ H)
    as (_ & _ & _ & _ & _ & _ & _ & _ & Hbase).
  eexists _, _. split; [exact H|]. split; [reflexivity|].
  split; [reflexivity|]. now rewrite Hbase.
Defined.

Section TwoFiles.

Variables (Config World FileWalker : Type).
Variable env : Collaborators Config World FileWalker.

(** X19: the weights stage and the plan agree on where the weights are:
    for discovered paths without line breaks, the weights stage copies each
    path P to the cleaned path /src/P, and the plan copies from the weights
    stage that same cleaned path to itself, path by path in the same
    order. *)
Theorem weights_stage_and_plan_agree (imageName : string)
  (g : Generator Config FileWalker) (w : World)
  (s' : Generator Config FileWalker * World) (weightsBase plan ignore : string) :
  GenerateModelBaseWithSeparateWeights env imageName (g, w)
  = (s', Ok (weightsBase, plan, ignore)) ->
  Forall oneLine (modelDirs (fst s') ++ modelFiles (fst s')) ->
  let paths := (modelDirs (fst s') ++ modelFiles (fst s'))%list in
  let dest := fun p => Go.PathJoin ["/src"; p] in
  lines weightsBase
  = (pragma :: "FROM scratch" :: ""
     :: map (fun p => ("COPY " ++ p ++ " " ++ dest p)%string) paths)%list
  /\ exists spliced,
       lines plan
       = (spliced
          ++ map (fun p => ("COPY --from=weights --link " ++ dest p ++ " "
                            ++ dest p)%string)
                 paths
          ++ [WORKDIR; EXPOSE; CMD; COPY_ALL])%list.
Proof.
  intros H Hone paths dest.
  pose proof H as H2.
  apply separate_weights_inv_full in H2
    as (w1 & dirs & files & Hfind & Hwb & _ & Hd & Hf & _).
  apply GenerateModelBaseWithSeparateWeights_inv in H
    as (w1' & dirs' & files' & steps & Hfind' & _ & -> & _).
  rewrite Hfind in Hfind'. injection Hfind' as _ <- <-.
  subst paths. rewrite Hd, Hf in *. split.
  - revert Hwb. unfold generateForWeights. run_monad. rewrite Hfind.
    cbn [fst snd]. intros Hwb. injection Hwb as <-.
    rewrite (fold_left_append (fun p => Go.LF ++ weightsStageCopy p)).
    pose proof (lines_weightsStage
                  (pragma ++ Go.LF ++ "FROM scratch" ++ Go.LF) Hone) as Hl.
    exact Hl.
  - eexists. rewrite separate_weights_lines, (weightCopies_lines Hone).
    reflexivity.
Qed.

End TwoFiles.

Lemma weights_stage_and_plan_agree_witness :
  exists s' weightsBase plan ignore,
    GenerateModelBaseWithSeparateWeights Sample.env "img"
      (Sample.withWeights, Sample.host)
    = (s', Ok (weightsBase, plan, ignore))
    /\ lines weightsBase
       = [pragma; "FROM scratch"; ""; "COPY weights /src/weights";
          "COPY a.bin /src/a.bin"].
Proof.
  eassert (H : GenerateModelBaseWithSeparateWeights Sample.env "img"
                 (Sample.withWeights, Sample.host) = (_, Ok (_, _, _)))
    by (vm_compute; reflexivity).
  eexists _, _, _, _. split; [exact H|].
  refine (proj1 (weights_stage_and_plan_agree _ _ _ _ H _)).
  repeat constructor.
Defined.
